(** * Salesforce harvester: the opportunity pipeline of [sf_to_elasticsearch.py]

    A shallow embedding of the four functions that make up the pipeline

      URL -> [extract_opportunity_id] -> query -> [get_currency_conversion_rates]
          -> [convert_currency_amount] -> [query_opportunity_data] -> document

    together with the small part of Python they run on:

    - exceptions are values of an error monad ([outcome]); [try_except] is
      the [try: ... except Exception] block;
    - [float] is IEEE 754 binary64, here Rocq's primitive floats, whose
      multiplication and division round to nearest-even as CPython's do;
      the built-in [round(x, n)] is written out on exact integers;
    - [dict] is a finite map ([gmap]) with string keys; JSON-decoded data is
      the type [pyval];
    - [str] is [string], read as ASCII text;
    - the patterns given to [re.search] are terms of a small regular
      expression type, run by a backtracking matcher.

    Logging has no effect on what the functions return and is left out. *)

From Stdlib Require Import ZArith Ascii String.
From Stdlib Require Import Floats.PrimFloat Floats.SpecFloat Floats.FloatOps.
From Stdlib Require Import Floats.FloatAxioms.
From stdpp Require Import gmap strings list fin_maps.

Set Warnings "-inexact-float,-register-all".
Local Open Scope string_scope.
Local Open Scope Z_scope.

(** ** Exceptions *)

Inductive exn_class :=
| KeyError | IndexError | TypeError | AttributeError | ValueError
| OverflowError | ZeroDivisionError
| URLError          (* urllib.error.URLError: no network, DNS, refused, timeout *)
| OtherException.   (* any other subclass of Exception *)

(** An exception: its class and [str(e)]. *)
Record exn := Exn { exn_type : exn_class; exn_str : string }.

Inductive outcome (A : Type) :=
| Return (a : A)
| Raise (e : exn).
Arguments Return {A} a.
Arguments Raise {A} e.

#[global] Instance outcome_ret : MRet outcome := @Return.
#[global] Instance outcome_bind : MBind outcome :=
  λ A B f m, match m with Return a => f a | Raise e => Raise e end.

(** [try: body except Exception as e: handler e] *)
Definition try_except {A} (body : outcome A) (handler : exn → outcome A) : outcome A :=
  match body with
  | Return a => Return a
  | Raise e => handler e
  end.

(** ** Floats *)

Module PyFloat.

(** [x == 0] on a float: true of [0.0] and [-0.0], false of [nan]. *)
Definition is_zero (x : float) : bool := (x =? 0)%float.

(** [x > 0] *)
Definition is_pos (x : float) : bool := (0 <? x)%float.

(** [a / b]: CPython raises on a zero divisor instead of returning an
    infinity or a nan. *)
Definition div (a b : float) : outcome float :=
  if is_zero b then Raise (Exn ZeroDivisionError "float division by zero")
  else Return (a / b)%float.

(** The integer nearest to [p / q] for [0 < q], ties to the even one. *)
Definition round_half_even (p q : Z) : Z :=
  let f := p / q in
  let r := 2 * (p mod q) in
  if r <? q then f
  else if q <? r then f + 1
  else if Z.even f then f else f + 1.

(** The float nearest to [p / q], with sign [s]: the correctly rounded
    quotient of the two integers. *)
Definition nearest (s : bool) (p q : positive) : float :=
  SF2Prim (SFdiv prec emax (S754_finite s p 0) (S754_finite false q 0)).

(** [round(x, ndigits)] for [0 <= ndigits], as [float.__round__] computes
    it: the exact value of [x] is rounded half-even to [ndigits] decimal
    places, and the decimal obtained is converted back to the nearest
    float. Infinities, nan and the zeros round to themselves. *)
Definition round (x : float) (ndigits : N) : float :=
  match Prim2SF x with
  | S754_finite s m e =>
      let scale := 10 ^ Z.of_N ndigits in
      let p := Z.pos m * scale * 2 ^ Z.max e 0 in
      let q := 2 ^ Z.max (- e) 0 in
      match round_half_even p q with
      | Z.pos n => nearest s n (Z.to_pos scale)
      | _ => if s then neg_zero else zero
      end
  | _ => x
  end.

(** [float(n)] for an [int]: the nearest float, or [OverflowError]. *)
Definition of_int (n : Z) : outcome float :=
  let f := SF2Prim (binary_normalize prec emax n 0 false) in
  if is_infinity f
  then Raise (Exn OverflowError "int too large to convert to float")
  else Return f.

End PyFloat.

(** ** Strings *)

Module PyStr.

(** [needle in hay] *)
Fixpoint contains (needle hay : string) : bool :=
  String.prefix needle hay ||
  match hay with
  | EmptyString => false
  | String _ hay' => contains needle hay'
  end.

(** [s.startswith(p)] *)
Definition startswith (s p : string) : bool := String.prefix p s.

Definition upper_char (c : ascii) : ascii :=
  let n := nat_of_ascii c in
  if ((97 <=? n) && (n <=? 122))%nat then ascii_of_nat (n - 32) else c.

(** [s.upper()] *)
Fixpoint upper (s : string) : string :=
  match s with
  | EmptyString => EmptyString
  | String c s' => String (upper_char c) (upper s')
  end.

Definition lower_char (c : ascii) : ascii :=
  let n := nat_of_ascii c in
  if ((65 <=? n) && (n <=? 90))%nat then ascii_of_nat (n + 32) else c.

(** [s.lower()] *)
Fixpoint lower (s : string) : string :=
  match s with
  | EmptyString => EmptyString
  | String c s' => String (lower_char c) (lower s')
  end.

(** [c.isspace()] on ASCII: tab to carriage return, the four separators
    0x1c to 0x1f, and the space. *)
Definition is_space (c : ascii) : bool :=
  let n := nat_of_ascii c in
  (((9 <=? n) && (n <=? 13)) || ((28 <=? n) && (n <=? 32)))%nat.

Fixpoint lstrip (s : string) : string :=
  match s with
  | EmptyString => EmptyString
  | String c s' => if is_space c then lstrip s' else s
  end.

Fixpoint rstrip (s : string) : string :=
  match s with
  | EmptyString => EmptyString
  | String c s' =>
      match rstrip s' with
      | EmptyString => if is_space c then EmptyString else String c EmptyString
      | r => String c r
      end
  end.

(** [s.strip()] *)
Definition strip (s : string) : string := rstrip (lstrip s).

(** [repr(s)] of a string without quotes or escapes in it. *)
Definition repr (s : string) : string := "'" +:+ s +:+ "'".

End PyStr.

(** ** JSON-decoded values *)

Inductive pyval :=
| PNone
| PBool (b : bool)
| PInt (n : Z)
| PFloat (f : float)
| PStr (s : string)
| PList (l : list pyval)
| PDict (d : gmap string pyval).

Module Py.

Definition type_name (v : pyval) : string :=
  match v with
  | PNone => "NoneType" | PBool _ => "bool" | PInt _ => "int"
  | PFloat _ => "float" | PStr _ => "str" | PList _ => "list"
  | PDict _ => "dict"
  end.

(** Truth value, as [if v], [not v] and [bool(v)] take it. *)
Definition truthy (v : pyval) : bool :=
  match v with
  | PNone => false
  | PBool b => b
  | PInt n => negb (n =? 0)
  | PFloat f => negb (PyFloat.is_zero f)
  | PStr s => negb (String.eqb s "")
  | PList l => match l with [] => false | _ => true end
  | PDict d => negb (bool_decide (d = ∅))
  end.

(** [v == 0] *)
Definition eq_zero (v : pyval) : bool :=
  match v with
  | PBool b => negb b
  | PInt n => n =? 0
  | PFloat f => PyFloat.is_zero f
  | _ => false
  end.

(** [v[key]] with a string key *)
Definition getitem (v : pyval) (key : string) : outcome pyval :=
  match v with
  | PDict d =>
      match d !! key with
      | Some x => Return x
      | None => Raise (Exn KeyError (PyStr.repr key))
      end
  | PList _ =>
      Raise (Exn TypeError "list indices must be integers or slices, not str")
  | PStr _ =>
      Raise (Exn TypeError "string indices must be integers, not 'str'")
  | _ =>
      Raise (Exn TypeError ("'" +:+ type_name v +:+ "' object is not subscriptable"))
  end.

(** [v[0]] *)
Definition getitem0 (v : pyval) : outcome pyval :=
  match v with
  | PList (x :: _) => Return x
  | PList [] => Raise (Exn IndexError "list index out of range")
  | PStr (String c _) => Return (PStr (String c EmptyString))
  | PStr EmptyString => Raise (Exn IndexError "string index out of range")
  | PDict _ => Raise (Exn KeyError "0")
  | _ =>
      Raise (Exn TypeError ("'" +:+ type_name v +:+ "' object is not subscriptable"))
  end.

(** [v.get(key, default)] *)
Definition get (v : pyval) (key : string) (dflt : pyval) : outcome pyval :=
  match v with
  | PDict d => Return (default dflt (d !! key))
  | _ =>
      Raise (Exn AttributeError
               ("'" +:+ type_name v +:+ "' object has no attribute 'get'"))
  end.

(** [key in v] for a dict [v] *)
Definition has_key (v : pyval) (key : string) : bool :=
  match v with
  | PDict d => bool_decide (is_Some (d !! key))
  | _ => false
  end.

(** [v.items()] *)
Definition items (v : pyval) : outcome (gmap string pyval) :=
  match v with
  | PDict d => Return d
  | _ =>
      Raise (Exn AttributeError
               ("'" +:+ type_name v +:+ "' object has no attribute 'items'"))
  end.

(** [v > 0] *)
Definition gt_zero (v : pyval) : outcome bool :=
  match v with
  | PBool b => Return b
  | PInt n => Return (0 <? n)
  | PFloat f => Return (PyFloat.is_pos f)
  | _ =>
      Raise (Exn TypeError
               ("'>' not supported between instances of '" +:+ type_name v
                  +:+ "' and 'int'"))
  end.

(** [1.0 / v] *)
Definition inverse (v : pyval) : outcome float :=
  match v with
  | PBool b => PyFloat.div 1 (if b then 1 else 0)
  | PInt n => f ← PyFloat.of_int n; PyFloat.div 1 f
  | PFloat f => PyFloat.div 1 f
  | _ =>
      Raise (Exn TypeError
               ("unsupported operand type(s) for /: 'float' and '"
                  +:+ type_name v +:+ "'"))
  end.

Definition of_float (a : option float) : pyval :=
  match a with Some f => PFloat f | None => PNone end.

Definition of_str (s : option string) : pyval :=
  match s with Some s => PStr s | None => PNone end.

End Py.

(** ** The Currency Normalizer: [convert_currency_amount] *)

(** The [result] dict of [convert_currency_amount]: its seven keys are fixed. *)
Record conversion := Conversion {
  original_amount : option float;
  original_currency : option string;
  converted_amount : pyval;
  converted_currency : option string;
  conversion_rate : float;
  conversion_successful : bool;
  conversion_note : option string
}.

(** [result[key] = v] for the four keys the function assigns to. *)
Definition set_converted_amount (v : pyval) (r : conversion) : conversion :=
  Conversion r.(original_amount) r.(original_currency) v r.(converted_currency)
    r.(conversion_rate) r.(conversion_successful) r.(conversion_note).
Definition set_conversion_rate (v : float) (r : conversion) : conversion :=
  Conversion r.(original_amount) r.(original_currency) r.(converted_amount)
    r.(converted_currency) v r.(conversion_successful) r.(conversion_note).
Definition set_conversion_successful (v : bool) (r : conversion) : conversion :=
  Conversion r.(original_amount) r.(original_currency) r.(converted_amount)
    r.(converted_currency) r.(conversion_rate) v r.(conversion_note).
Definition set_conversion_note (v : string) (r : conversion) : conversion :=
  Conversion r.(original_amount) r.(original_currency) r.(converted_amount)
    r.(converted_currency) r.(conversion_rate) r.(conversion_successful) (Some v).

(** [not amount or amount == 0] *)
Definition zero_or_absent (amount : option float) : bool :=
  negb (Py.truthy (Py.of_float amount)) || Py.eq_zero (Py.of_float amount).

(** [not code] for a currency code: [None] or the empty string. *)
Definition missing (code : option string) : bool :=
  negb (Py.truthy (Py.of_str code)).

(** [code.upper().strip()] *)
Definition normalized (code : string) : string := PyStr.strip (PyStr.upper code).

(** [amount * rate]; an absent amount never gets here, it would be a
    [TypeError]. *)
Definition times (amount : option float) (rate : float) : outcome float :=
  match amount with
  | Some a => Return (a * rate)%float
  | None =>
      Raise (Exn TypeError
               "unsupported operand type(s) for *: 'NoneType' and 'float'")
  end.

(** The rate applied and the amount converted with it, before rounding:
    the first four statements of the [try] block. *)
Definition apply_rate (amount : option float) (from_rate : float)
    (to_currency : string) (conversion_rates : gmap string float)
  : outcome (float * float) :=
  rate ← (if String.eqb to_currency "USD" then Return from_rate
          else
            let usd_rate := from_rate in
            let to_rate := default 1%float (conversion_rates !! to_currency) in
            PyFloat.div usd_rate to_rate);
  converted ← times amount rate;
  Return (rate, converted).

(** The two calls of [round] cannot raise: with two or six digits a float
    too large to have a fraction rounds to itself. What follows them in the
    [try] block only logs. *)
Definition convert_currency_amount (amount : option float)
    (from_currency to_currency : option string)
    (conversion_rates : gmap string float) : conversion :=
  let result :=
    {| original_amount := amount;
       original_currency := from_currency;
       converted_amount := Py.of_float amount;
       converted_currency := to_currency;
       conversion_rate := 1%float;
       conversion_successful := false;
       conversion_note := None |} in
  if zero_or_absent amount then
    set_conversion_note "Zero amount"
      (set_converted_amount (PInt 0) (set_conversion_successful true result))
  else if missing from_currency || missing to_currency then
    set_conversion_note "Missing currency information" result
  else
    let from_currency := normalized (default "" from_currency) in
    let to_currency := normalized (default "" to_currency) in
    if String.eqb from_currency to_currency then
      set_conversion_note "Same currency" (set_conversion_successful true result)
    else
      match conversion_rates !! from_currency with
      | None =>
          set_conversion_note
            ("Conversion rate not available for " +:+ from_currency) result
      | Some from_rate =>
          match apply_rate amount from_rate to_currency conversion_rates with
          | Return (rate, converted) =>
              set_conversion_note "Converted via API rates"
                (set_conversion_successful true
                   (set_conversion_rate (PyFloat.round rate 6)
                      (set_converted_amount (PFloat (PyFloat.round converted 2))
                         result)))
          | Raise e =>
              set_conversion_note
                ("Conversion calculation error: " +:+ exn_str e) result
          end
      end.


(** ** The Currency Normalizer: [get_currency_conversion_rates] *)

(** The static table: units of USD per unit of each currency. *)
Definition fallback_rates : gmap string float :=
  list_to_map
    [ ("USD", 1.0%float); ("EUR", 1.18%float); ("GBP", 1.37%float);
      ("JPY", 0.0067%float); ("CAD", 0.74%float); ("AUD", 0.67%float);
      ("CHF", 1.14%float); ("CNY", 0.14%float); ("INR", 0.012%float);
      ("BRL", 0.20%float) ].

(** [for key, value in d.items(): acc[key] = body key value], stopped by the
    first exception. The table built does not depend on the order of the
    turns; only which exception comes first does, and no caller looks at it. *)
Definition for_items {A} (body : string → A → outcome float) (d : gmap string A)
  : outcome (gmap string float) :=
  map_fold (λ key value acc,
              table ← acc;
              r ← body key value;
              Return (<[key := r]> table))
           (Return ∅) d.

(** The entry stored for one currency of the live response. *)
Definition live_entry (base_currency currency : string) (rate : pyval)
  : outcome float :=
  positive ← Py.gt_zero rate;
  if positive : bool then
    if negb (String.eqb currency base_currency) then Py.inverse rate
    else Return 1%float
  else Return (default 1%float (fallback_rates !! currency)).

(** The body of the [try] block once the response is decoded: [Some] table
    when it returns one, [None] when it falls through to the fallback. *)
Definition live_rates (base_currency : string) (data : pyval)
  : outcome (option (gmap string float)) :=
  success ← Py.get data "success" (PBool false);
  if Py.truthy success && Py.has_key data "rates" then
    rates ← Py.getitem data "rates";
    items ← Py.items rates;
    conversion_rates ← for_items (live_entry base_currency) items;
    Return (Some (<[base_currency := 1%float]> conversion_rates))
  else Return None.

(** The fallback table expressed in the requested base. *)
Definition rescaled_fallback (base_currency : string)
  : outcome (gmap string float) :=
  if negb (String.eqb base_currency "USD") then
    let base_rate := default 1%float (fallback_rates !! base_currency) in
    for_items (λ _ usd_rate, PyFloat.div usd_rate base_rate) fallback_rates
  else Return fallback_rates.

(** [response] is what fetching and decoding the rate source gave:
    [json.loads(urlopen(api_url, timeout=10).read().decode())], a value or
    the exception raised on the way (no network, timeout, not JSON). Both
    [except] clauses only log. *)
Definition get_currency_conversion_rates (base_currency : string)
    (response : outcome pyval) : outcome (gmap string float) :=
  live ← try_except (data ← response; live_rates base_currency data)
                    (λ _, Return None);
  match live with
  | Some conversion_rates => Return conversion_rates
  | None => rescaled_fallback base_currency
  end.

(** ** The Record Mapper: [query_opportunity_data] *)

(** The document for a missing or deleted opportunity. *)
Definition not_found_data (opportunity_id target_currency now : string)
  : gmap string pyval :=
  list_to_map
    [ ("opportunity_id", PStr opportunity_id);
      ("opportunity_name", PStr "OPPORTUNITY NOT FOUND");
      ("description", PStr "opportunity deleted or not found");
      ("amount", PFloat 0);
      ("currency_iso_code", PStr "USD");
      ("amount_converted", PFloat 0);
      ("converted_currency", PStr target_currency);
      ("conversion_rate", PFloat 1);
      ("conversion_successful", PBool true);
      ("conversion_note", PStr "No amount to convert");
      ("close_date", PNone);
      ("stage_name", PStr "NOT_FOUND");
      ("type", PStr "MISSING");
      ("probability", PFloat 0);
      ("is_won", PBool false);
      ("is_closed", PBool false);
      ("account_id", PNone);
      ("account_name", PStr "UNKNOWN");
      ("owner_id", PNone);
      ("owner_name", PStr "UNKNOWN");
      ("created_date", PNone);
      ("last_modified_date", PNone);
      ("extracted_at", PStr now);
      ("source", PStr "salesforce_opportunity_integration_not_found");
      ("error_status", PStr "OPPORTUNITY_NOT_FOUND");
      ("error_message", PStr "opportunity deleted or not found") ].

(** The document for a query that raised. *)
Definition error_data (opportunity_id target_currency now : string)
    (error_type error_message : string) : gmap string pyval :=
  list_to_map
    [ ("opportunity_id", PStr opportunity_id);
      ("opportunity_name", PStr ("ERROR: " +:+ error_type));
      ("description", PStr error_message);
      ("amount", PFloat 0);
      ("currency_iso_code", PStr "USD");
      ("amount_converted", PFloat 0);
      ("converted_currency", PStr target_currency);
      ("conversion_rate", PFloat 1);
      ("conversion_successful", PBool true);
      ("conversion_note", PStr "No amount to convert (error)");
      ("close_date", PNone);
      ("stage_name", PStr "ERROR");
      ("type", PStr "ERROR");
      ("probability", PFloat 0);
      ("is_won", PBool false);
      ("is_closed", PBool false);
      ("account_id", PNone);
      ("account_name", PStr "ERROR");
      ("owner_id", PNone);
      ("owner_name", PStr "ERROR");
      ("created_date", PNone);
      ("last_modified_date", PNone);
      ("extracted_at", PStr now);
      ("source", PStr "salesforce_opportunity_integration_error");
      ("error_status", PStr error_type);
      ("error_message", PStr error_message) ].

(** The [if]/[elif] chain of the [except] block: [(error_type, error_message)]. *)
Definition classify_error (error_str : string) : string * string :=
  if PyStr.contains "No such column" error_str && PyStr.contains "__c" error_str
  then ("CUSTOM_FIELD_ERROR", "Custom field error: " +:+ error_str)
  else if PyStr.contains "INVALID_FIELD" error_str
  then ("INVALID_FIELD_ERROR", "Invalid field error: " +:+ error_str)
  else if PyStr.contains "MALFORMED_QUERY" error_str
  then ("MALFORMED_QUERY_ERROR", "Malformed query error: " +:+ error_str)
  else if PyStr.contains "INSUFFICIENT_ACCESS" error_str
  then ("ACCESS_ERROR", "Insufficient access to query opportunity: " +:+ error_str)
  else ("QUERY_ERROR", "Error querying Salesforce: " +:+ error_str).

Section RecordMapper.

(** [float(s)] for a string [s] is the interpreter's parser of decimal
    literals; the mapper is defined over any such parser. *)
Variable float_of_str : string → outcome float.

(** [float(v)] *)
Definition py_float (v : pyval) : outcome float :=
  match v with
  | PFloat f => Return f
  | PInt n => PyFloat.of_int n
  | PBool b => Return (if b then 1%float else 0%float)
  | PStr s => float_of_str s
  | _ =>
      Raise (Exn TypeError
               ("float() argument must be a string or a real number, not '"
                  +:+ Py.type_name v +:+ "'"))
  end.

(** [float(record[key]) if record.get(key) else 0.0] *)
Definition float_field (record : pyval) (key : string) : outcome float :=
  v ← Py.get record key PNone;
  if Py.truthy v then (x ← Py.getitem record key; py_float x)
  else Return 0%float.

(** [bool(record.get(key, False))] *)
Definition bool_field (record : pyval) (key : string) : outcome pyval :=
  v ← Py.get record key (PBool false);
  Return (PBool (Py.truthy v)).

(** [record[relation][key] if record.get(relation) else None] *)
Definition related_field (record : pyval) (relation key : string)
  : outcome pyval :=
  v ← Py.get record relation PNone;
  if Py.truthy v then (r ← Py.getitem record relation; Py.getitem r key)
  else Return PNone.

(** The call of [convert_currency_amount] on the record's own currency
    value. The converter takes a string or [None]; any other value counts as
    missing when it is falsy, and when it is not it has no [upper] method,
    which shows once the amount is not zero and the target currency is not
    missing, the two tests that come before the call of [upper]. *)
Definition convert_record_amount (original_amount : float)
    (original_currency : pyval) (target_currency : string)
    (conversion_rates : gmap string float) : outcome conversion :=
  let convert code :=
    convert_currency_amount (Some original_amount) code (Some target_currency)
      conversion_rates in
  match original_currency with
  | PStr s => Return (convert (Some s))
  | v =>
      if zero_or_absent (Some original_amount)
         || (negb (Py.truthy v) || missing (Some target_currency))
      then Return (convert None)
      else Raise (Exn AttributeError
                    ("'" +:+ Py.type_name v +:+ "' object has no attribute 'upper'"))
  end.

(** The document of an opportunity that was found: the statements after
    the [totalSize] test, in the order they run. *)
Definition found_data (result : pyval) (response : outcome pyval)
    (target_currency now : string) : outcome (gmap string pyval) :=
  records ← Py.getitem result "records";
  opportunity ← Py.getitem0 records;
  conversion_rates ← get_currency_conversion_rates target_currency response;
  original_currency ← Py.get opportunity "CurrencyIsoCode" (PStr "USD");
  original_amount ← float_field opportunity "Amount";
  currency_conversion ←
    convert_record_amount original_amount original_currency target_currency
      conversion_rates;
  id ← Py.getitem opportunity "Id";
  name ← Py.getitem opportunity "Name";
  description ← Py.get opportunity "Description" PNone;
  close_date ← Py.get opportunity "CloseDate" PNone;
  stage_name ← Py.get opportunity "StageName" PNone;
  type ← Py.get opportunity "Type" PNone;
  probability ← float_field opportunity "Probability";
  is_won ← bool_field opportunity "IsWon";
  is_closed ← bool_field opportunity "IsClosed";
  account_id ← related_field opportunity "Account" "Id";
  account_name ← related_field opportunity "Account" "Name";
  owner_id ← related_field opportunity "Owner" "Id";
  owner_name ← related_field opportunity "Owner" "Name";
  created_date ← Py.get opportunity "CreatedDate" PNone;
  last_modified_date ← Py.get opportunity "LastModifiedDate" PNone;
  Return (list_to_map
    [ ("opportunity_id", id);
      ("opportunity_name", name);
      ("description", description);
      ("amount", PFloat original_amount);
      ("currency_iso_code", original_currency);
      ("amount_converted", currency_conversion.(converted_amount));
      ("converted_currency", Py.of_str currency_conversion.(converted_currency));
      ("conversion_rate", PFloat currency_conversion.(conversion_rate));
      ("conversion_successful", PBool currency_conversion.(conversion_successful));
      ("conversion_note", Py.of_str currency_conversion.(conversion_note));
      ("close_date", close_date);
      ("stage_name", stage_name);
      ("type", type);
      ("probability", PFloat probability);
      ("is_won", is_won);
      ("is_closed", is_closed);
      ("account_id", account_id);
      ("account_name", account_name);
      ("owner_id", owner_id);
      ("owner_name", owner_name);
      ("created_date", created_date);
      ("last_modified_date", last_modified_date);
      ("extracted_at", PStr now);
      ("source", PStr "salesforce_opportunity_integration") ]).

(** The [try] block. [query] is what [sf.query(soql_query)] gave: the
    decoded result or the exception it raised. *)
Definition query_body (query response : outcome pyval)
    (opportunity_id target_currency now : string) : outcome (gmap string pyval) :=
  result ← query;
  total ← Py.getitem result "totalSize";
  if Py.eq_zero total
  then Return (not_found_data opportunity_id target_currency now)
  else found_data result response target_currency now.

(** [now] is [datetime.utcnow().isoformat()] at the time the document is
    built. *)
Definition query_opportunity_data (query response : outcome pyval)
    (now opportunity_id target_currency : string) : gmap string pyval :=
  match query_body query response opportunity_id target_currency now with
  | Return data => data
  | Raise e =>
      let error_str := exn_str e in
      let '(error_type, error_message) := classify_error error_str in
      error_data opportunity_id target_currency now error_type error_message
  end.

End RecordMapper.

(** ** The ID Extractor: [extract_opportunity_id] *)

Module Regex.
Local Open Scope list_scope.

(** The fragment of [re] the three patterns are written in. *)
Inductive regex :=
| Eps                                   (* the empty pattern *)
| Chr (c : ascii)                       (* a literal character *)
| Class (p : ascii → bool)              (* a character class [...] *)
| Cat (r1 r2 : regex)                   (* r1 r2 *)
| Repeat (r : regex) (lo hi : nat)      (* r{lo,hi}, greedy *)
| Group (r : regex).                    (* ( r ), capturing *)

Definition text := list ascii.

(** What is left to match after a piece of the pattern: it is given the text
    that piece matched, the rest of the input and the groups closed so far. *)
Definition cont (A : Type) := text → text → list text → option A.

(** The loop of [r{lo,hi}]: [step] matches [r] once. With [fuel] turns left
    and [cnt] done, one more turn is tried first; when the rest of the
    pattern does not match after it, the loop stops here if [lo <= cnt]. *)
Fixpoint repeat {A} (step : text → list text → cont A → option A) (lo : nat)
    (k : cont A) (fuel cnt : nat) (t s : text) (gs : list text) : option A :=
  let stop := if (lo <=? cnt)%nat then k t s gs else None in
  match fuel with
  | O => stop
  | S fuel' =>
      match step s gs (λ t1 s1 gs1,
                         repeat step lo k fuel' (S cnt) (t ++ t1) s1 gs1) with
      | Some m => Some m
      | None => stop
      end
  end.

(** The backtracking matcher, anchored at the head of [s]. *)
Fixpoint run {A} (r : regex) {struct r} : text → list text → cont A → option A :=
  match r with
  | Eps => λ s gs k, k [] s gs
  | Chr c => λ s gs k,
      match s with
      | c' :: s' => if Ascii.eqb c c' then k [c'] s' gs else None
      | [] => None
      end
  | Class p => λ s gs k,
      match s with
      | c' :: s' => if p c' then k [c'] s' gs else None
      | [] => None
      end
  | Cat r1 r2 => λ s gs k,
      run r1 s gs (λ t1 s1 gs1,
        run r2 s1 gs1 (λ t2 s2 gs2, k (t1 ++ t2) s2 gs2))
  | Repeat r lo hi => λ s gs k, repeat (run r) lo k hi 0 [] s gs
  | Group r => λ s gs k,
      run r s gs (λ t s' gs', k t s' (gs' ++ [t]))
  end.

(** A match object: [group(0)] and the captured groups. *)
Definition match_object : Type := text * list text.

Definition match_at (r : regex) (s : text) : option match_object :=
  run r s [] (λ t _ gs, Some (t, gs)).

(** [re.search]: the match at the leftmost position that has one. *)
Fixpoint search (r : regex) (s : text) : option match_object :=
  match match_at r s with
  | Some m => Some m
  | None =>
      match s with
      | [] => None
      | _ :: s' => search r s'
      end
  end.

(** A literal string. *)
Fixpoint lit (w : text) : regex :=
  match w with
  | [] => Eps
  | c :: w' => Cat (Chr c) (lit w')
  end.

End Regex.

(** [[A-Za-z0-9]] *)
Definition alnum (c : ascii) : bool :=
  let n := nat_of_ascii c in
  (((65 <=? n) && (n <=? 90)) || ((97 <=? n) && (n <=? 122))
   || ((48 <=? n) && (n <=? 57)))%nat.

Definition chars (s : string) : Regex.text := list_ascii_of_string s.

Definition patterns : list Regex.regex :=
  [ Regex.Cat (Regex.lit (chars "006"))
      (Regex.Repeat (Regex.Class alnum) 12 15);
    Regex.Cat (Regex.lit (chars "/Opportunity/"))
      (Regex.Group (Regex.Repeat (Regex.Class alnum) 15 18));
    Regex.Cat (Regex.lit (chars "Opportunity%2F"))
      (Regex.Group (Regex.Repeat (Regex.Class alnum) 15 18)) ].

(** [match.group(1) if len(match.groups()) > 0 else match.group(0)] *)
Definition matched_id (m : Regex.match_object) : string :=
  string_of_list_ascii
    match m.2 with
    | g :: _ => g
    | [] => m.1
    end.

(** The [for] loop over the patterns. *)
Fixpoint first_id (ps : list Regex.regex) (url : string) : option string :=
  match ps with
  | [] => None
  | pattern :: ps' =>
      match Regex.search pattern (chars url) with
      | Some m =>
          let opportunity_id := matched_id m in
          if PyStr.startswith opportunity_id "006" then Some opportunity_id
          else first_id ps' url
      | None => first_id ps' url
      end
  end.

Definition extract_opportunity_id (url : string) : option string :=
  first_id patterns url.


(** ** The ID Extractor of [sf_to_json.py] *)

Module SfToJson.

(** The same three shapes in another order, the bare path segment first. *)
Definition patterns : list Regex.regex :=
  [ Regex.Cat (Regex.lit (chars "/"))
      (Regex.Group (Regex.Repeat (Regex.Class alnum) 15 18));
    Regex.Cat (Regex.lit (chars "/Opportunity/"))
      (Regex.Group (Regex.Repeat (Regex.Class alnum) 15 18));
    Regex.Cat (Regex.lit (chars "006"))
      (Regex.Repeat (Regex.Class alnum) 12 15) ].

(** The [for] loop over the patterns; a match counts when it starts with
    "006" and has 15 characters or more. *)
Fixpoint first_id (ps : list Regex.regex) (url : string) : option string :=
  match ps with
  | [] => None
  | pattern :: ps' =>
      match Regex.search pattern (chars url) with
      | Some m =>
          let opportunity_id := matched_id m in
          if PyStr.startswith opportunity_id "006"
             && (15 <=? String.length opportunity_id)%nat
          then Some opportunity_id
          else first_id ps' url
      | None => first_id ps' url
      end
  end.

Definition extract_opportunity_id (url : string) : option string :=
  first_id patterns url.

End SfToJson.

(** ** URL validation and the URL file *)

Definition salesforce_indicators : list string :=
  [ ".salesforce.com"; ".lightning.force.com"; "/lightning/r/Opportunity/";
    "Opportunity%2F" ].

(** [x is not None] *)
Definition is_not_none {A} (x : option A) : bool :=
  match x with Some _ => true | None => false end.

(** [url] is whatever the caller passes; anything but a non-empty string is
    refused at once. *)
Definition validate_opportunity_url (url : pyval) : bool :=
  match url with
  | PStr s =>
      if negb (Py.truthy url) then false
      else
        let url_lower := PyStr.lower s in
        let has_salesforce_pattern :=
          existsb (λ indicator, PyStr.contains indicator url_lower)
                  salesforce_indicators in
        let has_opportunity_id := is_not_none (extract_opportunity_id s) in
        has_salesforce_pattern && has_opportunity_id
  | _ => false
  end.

(** The loop over the lines of the file. *)
Fixpoint read_lines (lines : list string) : list string :=
  match lines with
  | [] => []
  | line :: rest =>
      let line := PyStr.strip line in
      if negb (Py.truthy (PStr line)) || PyStr.startswith line "#"
      then read_lines rest
      else if validate_opportunity_url (PStr line)
           then line :: read_lines rest
           else read_lines rest
  end.

(** [file] is what opening and reading [file_path] gave: its lines, or the
    exception raised on the way (no such file, not text), after which what
    was read is dropped. *)
Definition read_urls_from_file (file : outcome (list string)) : list string :=
  match file with
  | Return lines => read_lines lines
  | Raise _ => []
  end.

(** ** Processing one URL *)

(** The command line, as far as the pipeline reads it. *)
Record arguments := Arguments {
  args_json_only : bool;
  args_target_currency : option string
}.

(** [args] is [None] when the caller has no command line; [env] is
    [os.environ]. *)
Definition get_target_currency_from_config (args : option arguments)
    (env : gmap string string) : string :=
  let given :=
    match args with
    | Some a => a.(args_target_currency)
    | None => None
    end in
  if negb (missing given) then normalized (default "" given)
  else
    let target_currency := normalized (default "" (env !! "SF_TARGET_CURRENCY")) in
    if Py.truthy (PStr target_currency) then target_currency
    else "USD".

(** An Elasticsearch client: what [es.index(index=, id=, body=)] gives. *)
Definition es_client : Type := pyval → pyval → gmap string pyval → outcome pyval.

Definition index_opportunity_data (es : es_client) (data : gmap string pyval)
    (index_name : pyval) : bool :=
  match
    doc_id ← Py.getitem (PDict data) "opportunity_id";
    response ← es index_name doc_id data;
    result ← Py.getitem response "result";
    Return true
  with
  | Return ok => ok
  | Raise _ => false
  end.

(** The [result] dict of [process_single_opportunity]. *)
Record processing := Processing {
  processed_url : string;
  success : bool;
  processed_id : option string;
  processed_name : pyval;
  error : pyval;
  data : option (gmap string pyval)
}.

Definition set_error (v : pyval) (r : processing) : processing :=
  Processing r.(processed_url) r.(success) r.(processed_id) r.(processed_name)
    v r.(data).
Definition set_success (v : bool) (r : processing) : processing :=
  Processing r.(processed_url) v r.(processed_id) r.(processed_name)
    r.(error) r.(data).

(** [str(v)], the text an f-string puts for [v]: a string stands for
    itself, [str_other] is the interpreter's rendering of the other values. *)
Definition format_value (str_other : pyval → string) (v : pyval) : string :=
  match v with
  | PStr s => s
  | _ => str_other v
  end.

Section Processing.

Variable float_of_str : string → outcome float.
Variable str_other : pyval → string.

(** What the outside gives: the query result for an id, the rate source's
    answer for a base currency, the clock and the environment. *)
Variable sf : string → outcome pyval.
Variable rate_source : string → outcome pyval.
Variable now : string.
Variable env : gmap string string.

(** [data.get('error_status') is not None] *)
Definition is_error_document (document : gmap string pyval) : bool :=
  match document !! "error_status" with
  | None | Some PNone => false
  | Some _ => true
  end.

(** The part of the [try] block that comes after the document is stored:
    the error of an error document, then the indexing. *)
Definition index_step (es : option es_client)
    (es_config : option (gmap string pyval)) (args : arguments)
    (document : gmap string pyval) (result : processing) : outcome processing :=
  let result :=
    if is_error_document document
    then set_error (default (PStr "Unknown error") (document !! "error_message"))
           result
    else result in
  match es, es_config with
  | Some client, Some config =>
      if negb args.(args_json_only) && Py.truthy (PDict config) then
        index_name ← Py.getitem (PDict config) "index";
        if negb (index_opportunity_data client document index_name) then
          let additional_error := "Failed to index to Elasticsearch" in
          if is_error_document document
          then Return (set_error
                         (PStr (format_value str_other result.(error)
                                  +:+ " + " +:+ additional_error))
                         result)
          else Return (set_error (PStr additional_error) result)
        else Return result
      else Return result
  | _, _ => Return result
  end.

Definition process_single_opportunity (url : string) (es : option es_client)
    (es_config : option (gmap string pyval)) (args : arguments) : processing :=
  let result := Processing url false None PNone PNone None in
  let extracted := extract_opportunity_id url in
  if missing extracted then
    set_error (PStr "Could not extract opportunity ID from URL") result
  else
    let opportunity_id := default "" extracted in
    let result := Processing url false (Some opportunity_id) PNone PNone None in
    let target_currency := get_target_currency_from_config (Some args) env in
    let document :=
      query_opportunity_data float_of_str (sf opportunity_id)
        (rate_source target_currency) now opportunity_id target_currency in
    if negb (Py.truthy (PDict document)) then
      set_error
        (PStr "Failed to retrieve opportunity data - unexpected None response")
        result
    else
      let result :=
        Processing url false (Some opportunity_id)
          (default (PStr "Unknown") (document !! "opportunity_name"))
          PNone (Some document) in
      match index_step es es_config args document result with
      | Return result => set_success true result
      | Raise e =>
          set_error (PStr (exn_str e))
            (if is_error_document document
             then set_error
                    (default (PStr "Unknown error") (document !! "error_message"))
                    result
             else result)
      end.

End Processing.

(** ** The Elasticsearch configuration *)

(** [os.getenv(name)] *)
Definition getenv (env : gmap string string) (name : string) : pyval :=
  Py.of_str (env !! name).

(** [input(prompt)]: the next line typed, or [EOFError] when there is none. *)
Definition input (stdin : list string) : outcome (string * list string) :=
  match stdin with
  | line :: rest => Return (line, rest)
  | [] => Raise (Exn OtherException "EOF when reading a line")
  end.

(** The prompts of [get_elasticsearch_config], run on the lines typed. *)
Definition prompt_elasticsearch_config (config : gmap string pyval)
    (stdin : list string) : outcome (option (gmap string pyval)) :=
  '(line, stdin) ← input stdin;
  let config := <["cluster_url" := PStr (PyStr.strip line)]> config in
  if negb (Py.truthy (PStr (PyStr.strip line))) then Return None
  else
    '(line, stdin) ← input stdin;
    let auth_choice := PyStr.lower (PyStr.strip line) in
    '(config, stdin) ←
      (if bool_decide (auth_choice ∈ ["y"; "yes"]) then
         '(line, stdin) ← input stdin;
         Return (<["auth_type" := PStr "api_key"]>
                   (<["api_key" := PStr (PyStr.strip line)]> config), stdin)
       else
         '(username, stdin) ← input stdin;
         '(password, stdin) ← input stdin;
         Return (<["auth_type" := PStr "basic"]>
                   (<["password" := PStr (PyStr.strip password)]>
                      (<["username" := PStr (PyStr.strip username)]> config)),
                 stdin));
    '(line, stdin) ← input stdin;
    let index := PyStr.strip line in
    Return (Some (<["index" := PStr (if negb (Py.truthy (PStr index))
                                     then "salesforce-opportunities"
                                     else index)]> config)).

(** [env] is [os.environ], [stdin] the lines the user types when asked. *)
Definition get_elasticsearch_config (env : gmap string string)
    (stdin : list string) : option (gmap string pyval) :=
  let config : gmap string pyval :=
    <["index" := PStr (default "salesforce-opportunities" (env !! "ES_INDEX"))]>
      (<["api_key" := getenv env "ES_API_KEY"]>
         (<["password" := getenv env "ES_PASSWORD"]>
            (<["username" := getenv env "ES_USERNAME"]>
               (<["cluster_url" := getenv env "ES_CLUSTER_URL"]> ∅)))) in
  let has_auth :=
    (Py.truthy (getenv env "ES_USERNAME") && Py.truthy (getenv env "ES_PASSWORD"))
    || Py.truthy (getenv env "ES_API_KEY") in
  if Py.truthy (getenv env "ES_CLUSTER_URL") && has_auth then
    Some (<["auth_type" := PStr (if Py.truthy (getenv env "ES_API_KEY")
                                 then "api_key" else "basic")]> config)
  else
    match prompt_elasticsearch_config config stdin with
    | Return config => config
    | Raise _ => None
    end.

(** [v == s] for a string literal [s] *)
Definition eq_str (v : pyval) (s : string) : bool :=
  match v with
  | PStr s' => String.eqb s' s
  | _ => false
  end.

(** [v.startswith(('http://', 'https://'))] *)
Definition startswith_http (v : pyval) : outcome bool :=
  match v with
  | PStr s =>
      Return (PyStr.startswith s "http://" || PyStr.startswith s "https://")
  | _ =>
      Raise (Exn AttributeError
               ("'" +:+ Py.type_name v
                  +:+ "' object has no attribute 'startswith'"))
  end.

(** [not config.get(field)] *)
Definition lacks (config : gmap string pyval) (field : string) : bool :=
  negb (Py.truthy (default PNone (config !! field))).

Definition validate_elasticsearch_config (config : gmap string pyval)
  : outcome bool :=
  if existsb (lacks config) ["cluster_url"; "index"; "auth_type"]
  then Return false
  else
    let url_format :=
      cluster_url ← Py.getitem (PDict config) "cluster_url";
      ok ← startswith_http cluster_url;
      if negb ok then Return false else Return true in
    auth_type ← Py.getitem (PDict config) "auth_type";
    if eq_str auth_type "basic" then
      if lacks config "username" || lacks config "password" then Return false
      else url_format
    else if eq_str auth_type "api_key" then
      if lacks config "api_key" then Return false else url_format
    else url_format.

(** ** The main program *)

(** The validation pass of [main] over the URLs it was given: the URLs it
    goes on with, or [None] where it exits. Invalid URLs stop the run unless
    [--continue-on-error] is given, and are then left out. *)
Definition checked_urls (urls : list string) (continue_on_error : bool)
  : option (list string) :=
  let invalid_urls :=
    List.filter (λ url, negb (validate_opportunity_url (PStr url))) urls in
  if Py.truthy (PList (PStr <$> invalid_urls)) && negb continue_on_error
  then None
  else if Py.truthy (PList (PStr <$> invalid_urls)) && continue_on_error
  then Some (List.filter (λ url, negb (bool_decide (url ∈ invalid_urls))) urls)
  else Some urls.

Definition set_json_only (v : bool) (args : arguments) : arguments :=
  Arguments v args.(args_target_currency).

(** The Elasticsearch part of [main]: the client, the configuration and the
    command line, with [json_only] switched on where a step fails, that the
    processing loop runs with. [available] is [ELASTICSEARCH_AVAILABLE];
    [connect] and [create_index] are [connect_elasticsearch] and
    [create_elasticsearch_index], which catch what the cluster raises. *)
Definition setup_elasticsearch (args : arguments) (available : bool)
    (env : gmap string string) (stdin : list string)
    (connect : gmap string pyval → option es_client)
    (create_index : es_client → pyval → bool)
  : outcome (option es_client * option (gmap string pyval) * arguments) :=
  if negb args.(args_json_only) then
    if negb available then Return (None, None, set_json_only true args)
    else
      let es_config := get_elasticsearch_config env stdin in
      match es_config with
      | None => Return (None, es_config, set_json_only true args)
      | Some config =>
          if negb (Py.truthy (PDict config))
          then Return (None, es_config, set_json_only true args)
          else
            valid ← validate_elasticsearch_config config;
            if negb valid
            then Return (None, es_config, set_json_only true args)
            else
              match connect config with
              | None => Return (None, es_config, set_json_only true args)
              | Some es =>
                  index ← Py.getitem (PDict config) "index";
                  if negb (create_index es index)
                  then Return (Some es, es_config, set_json_only true args)
                  else Return (Some es, es_config, args)
              end
      end
  else Return (None, None, args).
(** ** Names used in the statements

    What follows is not in the source: these are the sets, closed forms and
    measures the properties are stated with. *)

(** The keys of the document of an opportunity that was found. *)
Definition core_fields : list string :=
  [ "opportunity_id"; "opportunity_name"; "description"; "amount";
    "currency_iso_code"; "amount_converted"; "converted_currency";
    "conversion_rate"; "conversion_successful"; "conversion_note";
    "close_date"; "stage_name"; "type"; "probability"; "is_won"; "is_closed";
    "account_id"; "account_name"; "owner_id"; "owner_name"; "created_date";
    "last_modified_date"; "extracted_at"; "source" ].

(** The two keys only the not-found and the error documents carry. *)
Definition error_fields : list string := [ "error_status"; "error_message" ].


(** A parser for the examples, whose records hold numbers in their numeric
    fields: it is never handed a string that reads as a number. *)
Definition not_a_number (s : string) : outcome float :=
  Raise (Exn ValueError
           ("could not convert string to float: " +:+ PyStr.repr s)).

Section Text.
Local Open Scope list_scope.
Import Regex.

(** The rest of [s] after the literal [w], when [s] starts with it. *)
Fixpoint strip_prefix (w s : text) : option text :=
  match w, s with
  | [], _ => Some s
  | c :: w', c' :: s' => if Ascii.eqb c c' then strip_prefix w' s' else None
  | _ :: _, [] => None
  end.

(** The longest run of at most [n] characters of the class [p] at the head
    of [s]. *)
Fixpoint take_run (p : ascii → bool) (n : nat) (s : text) : text :=
  match n, s with
  | S n', c :: s' => if p c then c :: take_run p n' s' else []
  | _, _ => []
  end.

(** The number of characters at the head of [s] that are in the class [p]. *)
Fixpoint run_length (p : ascii → bool) (s : text) : nat :=
  match s with
  | c :: s' => if p c then S (run_length p s') else O
  | [] => O
  end.

(** No position holds "006" and twelve letters or digits after it. *)
Definition no_id (s : text) : Prop :=
  ∀ pre suf, s = pre ++ chars "006" ++ suf → (run_length alnum suf < 12)%nat.

(** [ok] holds of the run of letters and digits after every "006" of [s]. *)
Fixpoint every_id_run (ok : nat → bool) (s : text) : bool :=
  match strip_prefix (chars "006") s with
  | Some suf => ok (run_length alnum suf)
  | None => true
  end
  && match s with
     | [] => true
     | _ :: s' => every_id_run ok s'
     end.

End Text.

(** The number of letters and digits a string starts with. *)
Definition alnum_run (s : string) : nat := run_length alnum (chars s).

(** The table the fallback path returns for a base. *)
Definition fallback_table (base_currency : string) : gmap string float :=
  if decide (base_currency = "USD") then fallback_rates
  else
    let base_rate := default 1%float (fallback_rates !! base_currency) in
    (λ usd_rate, (usd_rate / base_rate)%float) <$> fallback_rates.

(** What the live path gave: the table it returned, if it returned one. *)
Definition live_table (base_currency : string) (response : outcome pyval)
  : option (gmap string float) :=
  match response with
  | Return data =>
      match live_rates base_currency data with
      | Return (Some table) => Some table
      | _ => None
      end
  | Raise _ => None
  end.


(** [c.isupper()] on ASCII *)
Definition is_upper (c : ascii) : bool :=
  let n := nat_of_ascii c in ((65 <=? n) && (n <=? 90))%nat.

(** A string does not start with a blank. *)
Definition no_leading_space (s : string) : Prop :=
  match s with
  | EmptyString => True
  | String c _ => PyStr.is_space c = false
  end.

(** The call returned, it did not raise. *)
Definition returned {A} (o : outcome A) : bool :=
  match o with
  | Return _ => true
  | Raise _ => false
  end.
(** A rate the loop of the live path gets through: a number, that is a
    value [rate > 0] is defined on, and where [1.0 / rate] is computed (a
    positive rate of a currency other than the base) not an int too large
    for a float. *)
Definition usable_rate (base_currency currency : string) (rate : pyval) : bool :=
  match rate with
  | PBool _ | PFloat _ => true
  | PInt n =>
      (n <=? 0) || String.eqb currency base_currency
      || returned (Py.inverse rate)
  | _ => false
  end.

(** The fetch gave no live table, read off the response alone: it raised
    (no network, timeout, not JSON), or what it decoded is malformed, that
    is anything but a dict with a true [success] and a dict [rates] whose
    values are all usable rates. *)
Definition failed_fetch (base_currency : string) (response : outcome pyval)
  : bool :=
  match response with
  | Raise _ => true
  | Return (PDict data) =>
      negb (Py.truthy (default (PBool false) (data !! "success")))
      || match data !! "rates" with
         | Some (PDict rates) =>
             negb (bool_decide
                     (map_Forall (λ currency rate,
                                    usable_rate base_currency currency rate = true)
                                 rates))
         | _ => true
         end
  | Return _ => true
  end.

(** * Properties *)

(** ** Conversion: the ordered edge cases *)

Section Convert.

Variables (amount : option float) (from_currency to_currency : option string).
Variable conversion_rates : gmap string float.

Let result0 : conversion :=
  {| original_amount := amount;
     original_currency := from_currency;
     converted_amount := Py.of_float amount;
     converted_currency := to_currency;
     conversion_rate := 1%float;
     conversion_successful := false;
     conversion_note := None |}.

Lemma convert_zero :
  zero_or_absent amount = true →
  convert_currency_amount amount from_currency to_currency conversion_rates
  = set_conversion_note "Zero amount"
      (set_converted_amount (PInt 0) (set_conversion_successful true result0)).
Proof. intros H. unfold convert_currency_amount. by rewrite H. Qed.

Lemma convert_missing :
  zero_or_absent amount = false →
  missing from_currency || missing to_currency = true →
  convert_currency_amount amount from_currency to_currency conversion_rates
  = set_conversion_note "Missing currency information" result0.
Proof. intros H1 H2. unfold convert_currency_amount. by rewrite H1, H2. Qed.

End Convert.

Lemma missing_Some (code : string) : code ≠ "" → missing (Some code) = false.
Proof.
  intros H. unfold missing; simpl.
  destruct (String.eqb_spec code ""); [done | reflexivity].
Qed.

Section ConvertCodes.

Variables (amount : option float) (from to : string).
Variable conversion_rates : gmap string float.
Hypothesis nonzero : zero_or_absent amount = false.
Hypothesis from_given : from ≠ "".
Hypothesis to_given : to ≠ "".

Let result0 : conversion :=
  {| original_amount := amount;
     original_currency := Some from;
     converted_amount := Py.of_float amount;
     converted_currency := Some to;
     conversion_rate := 1%float;
     conversion_successful := false;
     conversion_note := None |}.

Lemma convert_same :
  normalized from = normalized to →
  convert_currency_amount amount (Some from) (Some to) conversion_rates
  = set_conversion_note "Same currency" (set_conversion_successful true result0).
Proof.
  intros H. unfold convert_currency_amount.
  rewrite nonzero, !missing_Some by done. simpl.
  by rewrite H, String.eqb_refl.
Qed.

Lemma convert_no_rate :
  normalized from ≠ normalized to →
  conversion_rates !! normalized from = None →
  convert_currency_amount amount (Some from) (Some to) conversion_rates
  = set_conversion_note
      ("Conversion rate not available for " +:+ normalized from) result0.
Proof.
  intros H1 H2. unfold convert_currency_amount.
  rewrite nonzero, !missing_Some by done. simpl.
  apply String.eqb_neq in H1. by rewrite H1, H2.
Qed.

Lemma convert_rate (from_rate : float) :
  normalized from ≠ normalized to →
  conversion_rates !! normalized from = Some from_rate →
  convert_currency_amount amount (Some from) (Some to) conversion_rates
  = match apply_rate amount from_rate (normalized to) conversion_rates with
    | Return (rate, converted) =>
        set_conversion_note "Converted via API rates"
          (set_conversion_successful true
             (set_conversion_rate (PyFloat.round rate 6)
                (set_converted_amount (PFloat (PyFloat.round converted 2))
                   result0)))
    | Raise e =>
        set_conversion_note ("Conversion calculation error: " +:+ exn_str e)
          result0
    end.
Proof.
  intros H1 H2. unfold convert_currency_amount.
  rewrite nonzero, !missing_Some by done. simpl.
  apply String.eqb_neq in H1. by rewrite H1, H2.
Qed.

End ConvertCodes.

(** A nonzero amount is a float that is there. *)
Lemma nonzero_amount (amount : option float) :
  zero_or_absent amount = false →
  ∃ a, amount = Some a ∧ PyFloat.is_zero a = false.
Proof.
  destruct amount as [a|]; [|done].
  unfold zero_or_absent; simpl. intros H.
  exists a. split; [done|]. by destruct (PyFloat.is_zero a).
Qed.

Lemma zero_or_absent_Some (a : float) :
  zero_or_absent (Some a) = PyFloat.is_zero a.
Proof. unfold zero_or_absent; simpl. by destruct (PyFloat.is_zero a). Qed.

(** The two branches of [apply_rate]. *)
Lemma apply_rate_usd (a from_rate : float) (rates : gmap string float) :
  apply_rate (Some a) from_rate "USD" rates
  = Return (from_rate, (a * from_rate)%float).
Proof. reflexivity. Qed.

Lemma apply_rate_cross (a from_rate : float) (to : string)
    (rates : gmap string float) :
  to ≠ "USD" →
  PyFloat.is_zero (default 1%float (rates !! to)) = false →
  apply_rate (Some a) from_rate to rates
  = let rate := (from_rate / default 1%float (rates !! to))%float in
    Return (rate, (a * rate)%float).
Proof.
  intros H1 H2. unfold apply_rate.
  apply String.eqb_neq in H1. rewrite H1.
  unfold PyFloat.div. by rewrite H2.
Qed.

Lemma apply_rate_zero_division (a from_rate : float) (to : string)
    (rates : gmap string float) :
  to ≠ "USD" →
  PyFloat.is_zero (default 1%float (rates !! to)) = true →
  apply_rate (Some a) from_rate to rates
  = Raise (Exn ZeroDivisionError "float division by zero").
Proof.
  intros H1 H2. unfold apply_rate.
  apply String.eqb_neq in H1. rewrite H1.
  unfold PyFloat.div. by rewrite H2.
Qed.

(** A sequence of statements returns only if each of them does. *)
Lemma bind_Return {A B} (m : outcome A) (f : A → outcome B) (b : B) :
  m ≫= f = Return b → ∃ a, m = Return a ∧ f a = Return b.
Proof. destruct m as [a|e]; [by exists a | done]. Qed.

Lemma Return_inj {A} (a b : A) : Return a = Return b → a = b.
Proof. by intros [= ->]. Qed.

Lemma not_elem_of_existsb (key : string) (keys : list string) :
  existsb (String.eqb key) keys = false → key ∉ keys.
Proof.
  induction keys as [|k keys IH]; simpl.
  - intros _. apply not_elem_of_nil.
  - intros [Hk Hks]%orb_false_elim. apply not_elem_of_cons. split; [|auto].
    by apply String.eqb_neq.
Qed.


(** ** The model on known values *)

(** [round] on the values the Python documentation discusses: 2.675 is
    stored just below the tie and rounds down, exact ties go to the even
    neighbour, the sign of zero is kept. *)
Example round_2_675 : PyFloat.round 2.675 2 = 2.67%float.
Proof. vm_compute. reflexivity. Qed.

Example round_ties_to_even :
  PyFloat.round 0.5 0 = 0%float ∧ PyFloat.round 1.5 0 = 2%float
  ∧ PyFloat.round 2.5 0 = 2%float ∧ PyFloat.round 0.125 2 = 0.12%float.
Proof. vm_compute. done. Qed.

Example round_negative_zero : PyFloat.round (-0.001) 2 = neg_zero.
Proof. vm_compute. reflexivity. Qed.

(** The URL of the module's docstring. *)
Example extract_docstring_url :
  extract_opportunity_id
    "https://elastic.lightning.force.com/lightning/r/Opportunity/006Vv00000ABC123/view"
  = Some "006Vv00000ABC123".
Proof. vm_compute. reflexivity. Qed.

Example extract_encoded_url :
  extract_opportunity_id "https://x.my.salesforce.com/?r=Opportunity%2F006Vv00000ABC123XY%2Fview"
  = Some "006Vv00000ABC123XY".
Proof. vm_compute. reflexivity. Qed.

Example extract_account_url :
  extract_opportunity_id "https://x.lightning.force.com/lightning/r/Account/001Vv00000ABC123/view"
  = None.
Proof. vm_compute. reflexivity. Qed.

(** The same-currency case of the specification's examples. *)
Example convert_same_currency :
  let r := convert_currency_amount (Some 100%float) (Some "USD") (Some "USD") ∅ in
  r.(conversion_successful) = true ∧ r.(converted_amount) = PFloat 100
  ∧ r.(conversion_rate) = 1%float ∧ r.(conversion_note) = Some "Same currency".
Proof. vm_compute. done. Qed.

(** The rate source answering, unreachable, and answering with something
    that is not a table of numbers. *)
Example rates_live :
  (table ← get_currency_conversion_rates "EUR"
             (Return (PDict {[ "success" := PBool true;
                               "rates" := PDict {[ "EUR" := PInt 1;
                                                   "USD" := PFloat 1.25;
                                                   "JPY" := PInt 160 ]} ]}));
   Return (table !! "EUR", table !! "USD", table !! "JPY", table !! "GBP"))
  = Return (Some 1%float, Some 0.8%float, Some 0.00625%float, None).
Proof. vm_compute. reflexivity. Qed.

Example rates_timeout :
  (table ← get_currency_conversion_rates "USD" (Raise (Exn URLError "timed out"));
   Return (table !! "USD", table !! "JPY", size table))
  = Return (Some 1%float, Some 0.0067%float, 10%nat).
Proof. vm_compute. reflexivity. Qed.

Example rates_malformed :
  let static_table response :=
    table ← get_currency_conversion_rates "USD" response;
    Return (table !! "EUR", size table) in
  static_table (Return (PList [])) = Return (Some 1.18%float, 10%nat)
  ∧ static_table
      (Return (PDict {[ "success" := PBool true;
                        "rates" := PDict {[ "EUR" := PStr "n/a" ]} ]}))
    = Return (Some 1.18%float, 10%nat)
  ∧ static_table
      (Return (PDict {[ "rates" := PDict {[ "EUR" := PFloat 0.9 ]} ]}))
    = Return (Some 1.18%float, 10%nat).
Proof. vm_compute. done. Qed.

(** ** Conversion: the claims *)

(** C6. A zero or absent amount converts to 0 with success and the note
    "Zero amount", whatever the currency codes (given, empty or absent) and
    whatever the rate table holds: the test comes first. *)
Theorem zero_amount_succeeds (amount : option float)
    (from_currency to_currency : option string)
    (conversion_rates : gmap string float) :
  zero_or_absent amount = true →
  let r := convert_currency_amount amount from_currency to_currency
             conversion_rates in
  r.(conversion_successful) = true
  ∧ r.(converted_amount) = PInt 0
  ∧ r.(conversion_note) = Some "Zero amount".
Proof. intros H. simpl. by rewrite convert_zero. Qed.

Lemma zero_amount_succeeds_witness :
  zero_or_absent (Some 0%float) = true
  ∧ zero_or_absent None = true
  ∧ (convert_currency_amount (Some 0%float) (Some "EUR") (Some "USD") ∅).(conversion_note)
    = Some "Zero amount"
  ∧ (convert_currency_amount None None (Some "") ∅).(converted_amount) = PInt 0.
Proof.
  split; [reflexivity|]. split; [reflexivity|]. split.
  - apply (zero_amount_succeeds (Some 0%float) (Some "EUR") (Some "USD") ∅).
    reflexivity.
  - apply (zero_amount_succeeds None None (Some "") ∅). reflexivity.
Defined.

(** C7, as the code has it. For a nonzero amount: a missing currency code
    gives a failure with the note "Missing currency information" and the
    amount unchanged; and when both codes are given and differ once
    normalized, a source currency that the rate table lacks gives a failure
    whose note names it, the amount again unchanged. *)
Theorem missing_code_or_rate_fails (amount : option float)
    (conversion_rates : gmap string float) :
  zero_or_absent amount = false →
  (∀ from_currency to_currency,
     missing from_currency || missing to_currency = true →
     let r := convert_currency_amount amount from_currency to_currency
                conversion_rates in
     r.(conversion_successful) = false
     ∧ r.(conversion_note) = Some "Missing currency information"
     ∧ r.(converted_amount) = Py.of_float amount)
  ∧ (∀ from to,
       from ≠ "" → to ≠ "" →
       normalized from ≠ normalized to →
       conversion_rates !! normalized from = None →
       let r := convert_currency_amount amount (Some from) (Some to)
                  conversion_rates in
       r.(conversion_successful) = false
       ∧ r.(conversion_note)
         = Some ("Conversion rate not available for " +:+ normalized from)
       ∧ r.(converted_amount) = Py.of_float amount).
Proof.
  intros Hnz. split.
  - intros from_currency to_currency Hm. simpl. by rewrite convert_missing.
  - intros from to Hf Ht Hne Hno. simpl. by rewrite convert_no_rate.
Qed.

Lemma missing_code_or_rate_fails_witness :
  (convert_currency_amount (Some 100%float) None (Some "USD")
     {[ "USD" := 1%float ]}).(conversion_note)
  = Some "Missing currency information"
  ∧ (let r := convert_currency_amount (Some 100%float) (Some "XYZ") (Some "USD")
                {[ "USD" := 1%float ]} in
     r.(conversion_successful) = false
     ∧ r.(conversion_note) = Some "Conversion rate not available for XYZ"
     ∧ r.(converted_amount) = PFloat 100).
Proof.
  pose proof (missing_code_or_rate_fails (Some 100%float) {[ "USD" := 1%float ]}
                eq_refl) as [Hmissing Hrate].
  split.
  - apply (Hmissing None (Some "USD")). reflexivity.
  - apply (Hrate "XYZ" "USD"); [done | done | done | reflexivity].
Defined.

(** C7 as stated fails when the two codes are the same once normalized: the
    same-currency test comes before the table is looked at, so a currency the
    table lacks converts to itself with success. *)
Lemma absent_source_same_currency_succeeds :
  let rates : gmap string float := {[ "USD" := 1%float ]} in
  let r := convert_currency_amount (Some 100%float) (Some "xyz ") (Some "XYZ")
             rates in
  zero_or_absent (Some 100%float) = false
  ∧ rates !! normalized "xyz " = None
  ∧ r.(conversion_successful) = true
  ∧ r.(conversion_note) = Some "Same currency".
Proof. vm_compute. done. Qed.

(** C10. A nonzero amount, two codes that differ once normalized, a source
    the table has, a target that is not USD and that the table lacks: the
    conversion succeeds with the target's rate taken as 1.0. *)
Theorem absent_target_defaults_to_one (a : float) (from to : string)
    (conversion_rates : gmap string float) (from_rate : float) :
  PyFloat.is_zero a = false →
  from ≠ "" → to ≠ "" →
  normalized from ≠ normalized to →
  conversion_rates !! normalized from = Some from_rate →
  normalized to ≠ "USD" →
  conversion_rates !! normalized to = None →
  let r := convert_currency_amount (Some a) (Some from) (Some to)
             conversion_rates in
  r.(conversion_successful) = true
  ∧ r.(conversion_rate) = PyFloat.round (from_rate / 1) 6
  ∧ r.(converted_amount) = PFloat (PyFloat.round (a * (from_rate / 1)) 2)
  ∧ r.(conversion_note) = Some "Converted via API rates".
Proof.
  intros Hnz Hf Ht Hne Hfrom Husd Hto. simpl.
  rewrite (convert_rate _ _ _ _ (eq_trans (zero_or_absent_Some a) Hnz) Hf Ht
             from_rate Hne Hfrom).
  rewrite apply_rate_cross by (by rewrite ?Hto).
  by rewrite Hto.
Qed.

Lemma absent_target_defaults_to_one_witness :
  let r := convert_currency_amount (Some 100%float) (Some "usd") (Some "sek")
             fallback_rates in
  r.(conversion_successful) = true
  ∧ r.(conversion_rate) = PyFloat.round (1 / 1) 6
  ∧ r.(converted_amount) = PFloat (PyFloat.round (100 * (1 / 1)) 2)
  ∧ r.(conversion_note) = Some "Converted via API rates".
Proof.
  apply (absent_target_defaults_to_one 100 "usd" "sek" fallback_rates 1);
    vm_compute; done.
Defined.

(** C4, as the code has it. For a nonzero amount, two codes that differ once
    normalized and a table that has the source: when the target is USD the
    source's rate is applied as it is; for any other target the rate applied
    is [rate[from] / rate[to]], where a target the table lacks counts as 1.0,
    provided that divisor is not zero. The amount is rounded to 2 decimals
    and the stored rate to 6. In particular 100 JPY at 0.0067 are 0.67 USD. *)
Theorem rate_applied :
  (∀ (a : float) (from to : string) (conversion_rates : gmap string float)
     (from_rate : float),
     PyFloat.is_zero a = false →
     from ≠ "" → to ≠ "" →
     normalized from ≠ normalized to →
     conversion_rates !! normalized from = Some from_rate →
     let r := convert_currency_amount (Some a) (Some from) (Some to)
                conversion_rates in
     (normalized to = "USD" →
        r.(conversion_successful) = true
        ∧ r.(converted_amount) = PFloat (PyFloat.round (a * from_rate) 2)
        ∧ r.(conversion_rate) = PyFloat.round from_rate 6)
     ∧ (normalized to ≠ "USD" →
        ∀ to_rate,
          default 1%float (conversion_rates !! normalized to) = to_rate →
          PyFloat.is_zero to_rate = false →
          r.(conversion_successful) = true
          ∧ r.(converted_amount)
            = PFloat (PyFloat.round (a * (from_rate / to_rate)) 2)
          ∧ r.(conversion_rate) = PyFloat.round (from_rate / to_rate) 6))
  ∧ (let r := convert_currency_amount (Some 100%float) (Some "JPY") (Some "USD")
                {[ "JPY" := 0.0067%float; "USD" := 1.0%float ]} in
     r.(conversion_successful) = true
     ∧ r.(converted_amount) = PFloat 0.67
     ∧ r.(conversion_rate) = 0.0067%float).
Proof.
  split; [|vm_compute; done].
  intros a from to rates from_rate Hnz Hf Ht Hne Hfrom. simpl.
  rewrite (convert_rate _ _ _ _ (eq_trans (zero_or_absent_Some a) Hnz) Hf Ht
             from_rate Hne Hfrom).
  split.
  - intros ->. by rewrite apply_rate_usd.
  - intros Husd to_rate <- Hz. by rewrite apply_rate_cross.
Qed.

Lemma rate_applied_witness :
  let rates : gmap string float :=
    {[ "JPY" := 0.0067%float; "EUR" := 1.18%float ]} in
  (let r := convert_currency_amount (Some 100%float) (Some "jpy") (Some " usd")
              rates in
   r.(converted_amount) = PFloat (PyFloat.round (100 * 0.0067) 2)
   ∧ r.(conversion_rate) = PyFloat.round 0.0067 6)
  ∧ (let r := convert_currency_amount (Some 100%float) (Some "JPY") (Some "EUR")
                rates in
     r.(converted_amount) = PFloat (PyFloat.round (100 * (0.0067 / 1.18)) 2)
     ∧ r.(conversion_rate) = PyFloat.round (0.0067 / 1.18) 6).
Proof.
  intros rates. split.
  - apply (proj1 rate_applied 100%float "jpy" " usd" rates 0.0067%float);
      vm_compute; done.
  - apply (proj1 rate_applied 100%float "JPY" "EUR" rates 0.0067%float);
      vm_compute; done.
Defined.

(** C4 as stated fails on a table whose base is not USD: the converter
    tests the target against the literal USD, not against the table's base.
    On a EUR-based table a conversion to USD applies the yen's EUR rate as it
    is (0.0057) where the cross rate is 0.0057 / 0.85 = 0.006706. *)
Lemma usd_target_skips_cross_rate :
  let rates : gmap string float :=
    {[ "EUR" := 1.0%float; "USD" := 0.85%float; "JPY" := 0.0057%float ]} in
  let r := convert_currency_amount (Some 100%float) (Some "JPY") (Some "USD")
             rates in
  rates !! "EUR" = Some 1%float
  ∧ rates !! "USD" = Some 0.85%float
  ∧ rates !! "JPY" = Some 0.0057%float
  ∧ r.(conversion_successful) = true
  ∧ r.(conversion_rate) = 0.0057%float
  ∧ r.(converted_amount) = PFloat 0.57
  ∧ PyFloat.round (0.0057 / 0.85) 6 = 0.006706%float
  ∧ PyFloat.round (100 * (0.0057 / 0.85)) 2 = 0.67%float
  ∧ (r.(conversion_rate) =? PyFloat.round (0.0057 / 0.85) 6)%float = false.
Proof. vm_compute. done. Qed.

(** C2, as the code has it. A successful conversion is one of three: the
    zero amount (0, rate 1.0, note "Zero amount"), the same currency (the
    amount itself, rate 1.0, note "Same currency"), or an amount rounded to 2
    decimals from the product with the rate applied, a rate that is stored
    rounded to 6 decimals. *)
Theorem successful_conversion (amount : option float) (from to : option string)
    (conversion_rates : gmap string float) :
  let r := convert_currency_amount amount from to conversion_rates in
  r.(conversion_successful) = true →
  (r.(conversion_note) = Some "Zero amount"
   ∧ r.(conversion_rate) = 1%float ∧ r.(converted_amount) = PInt 0)
  ∨ (r.(conversion_note) = Some "Same currency"
     ∧ r.(conversion_rate) = 1%float ∧ r.(converted_amount) = Py.of_float amount)
  ∨ (∃ a rate,
       amount = Some a
       ∧ r.(conversion_note) = Some "Converted via API rates"
       ∧ r.(converted_amount) = PFloat (PyFloat.round (a * rate) 2)
       ∧ r.(conversion_rate) = PyFloat.round rate 6).
Proof.
  simpl.
  destruct (zero_or_absent amount) eqn:Hz.
  { rewrite convert_zero by done. intros _. by left. }
  destruct (missing from || missing to) eqn:Hm.
  { by rewrite convert_missing. }
  apply orb_false_elim in Hm as [Hf Ht].
  destruct from as [from|]; [|done]. destruct to as [to|]; [|done].
  assert (from ≠ "") as Hf' by (by intros ->).
  assert (to ≠ "") as Ht' by (by intros ->).
  destruct (decide (normalized from = normalized to)) as [Heq|Hne].
  { rewrite convert_same by done. intros _. right. by left. }
  destruct (conversion_rates !! normalized from) as [from_rate|] eqn:Hfrom.
  2: { by rewrite convert_no_rate. }
  rewrite (convert_rate _ _ _ _ Hz Hf' Ht' from_rate Hne Hfrom).
  destruct (nonzero_amount _ Hz) as (a & -> & Ha).
  destruct (apply_rate _ _ _ _) as [[rate converted]|e] eqn:Happly; [|done].
  intros _. right. right. exists a, rate.
  assert (converted = (a * rate)%float) as ->; [|done].
  unfold apply_rate in Happly.
  destruct (if String.eqb _ _ then _ else _) as [rate'|]; simpl in Happly;
    congruence.
Qed.

Lemma successful_conversion_witness :
  let r := convert_currency_amount (Some 100%float) (Some "JPY") (Some "USD")
             fallback_rates in
  (r.(conversion_note) = Some "Zero amount"
   ∧ r.(conversion_rate) = 1%float ∧ r.(converted_amount) = PInt 0)
  ∨ (r.(conversion_note) = Some "Same currency"
     ∧ r.(conversion_rate) = 1%float
     ∧ r.(converted_amount) = Py.of_float (Some 100%float))
  ∨ (∃ a rate,
       Some 100%float = Some a
       ∧ r.(conversion_note) = Some "Converted via API rates"
       ∧ r.(converted_amount) = PFloat (PyFloat.round (a * rate) 2)
       ∧ r.(conversion_rate) = PyFloat.round rate 6).
Proof.
  apply (successful_conversion (Some 100%float) (Some "JPY") (Some "USD")
           fallback_rates).
  vm_compute. reflexivity.
Defined.

(** C2 as stated fails: the amount is computed with the rate before it is
    rounded, so multiplying the stored rate back does not give it. A million
    yen in euros at 0.0067 / 1.18 are 5677.97, the stored rate is 0.005678,
    and a million times that is 5678. *)
Lemma stored_rate_does_not_reproduce_amount :
  let r := convert_currency_amount (Some 1000000%float) (Some "JPY") (Some "EUR")
             fallback_rates in
  r.(conversion_successful) = true
  ∧ r.(conversion_note) = Some "Converted via API rates"
  ∧ r.(converted_amount) = PFloat 5677.97
  ∧ r.(conversion_rate) = 0.005678%float
  ∧ PyFloat.round (1000000 * r.(conversion_rate)) 2 = 5678%float
  ∧ (5677.97 =? 5678)%float = false.
Proof. vm_compute. done. Qed.

(** ** Rate tables *)

(** A loop whose body never raises builds the table of its results. *)
Lemma for_items_total {A} (body : string → A → outcome float) (g : A → float)
    (d : gmap string A) :
  (∀ key value, body key value = Return (g value)) →
  for_items body d = Return (g <$> d).
Proof.
  intros Hbody. unfold for_items.
  apply (map_fold_weak_ind (λ r m, r = Return (g <$> m))).
  - by rewrite fmap_empty.
  - intros key value m r _ ->. simpl.
    rewrite Hbody. simpl. by rewrite fmap_insert.
Qed.

(** Every rate of the static table is nonzero and divides itself to 1.0. *)
Lemma fallback_rate_known (currency : string) (rate : float) :
  fallback_rates !! currency = Some rate →
  PyFloat.is_zero rate = false ∧ (rate / rate)%float = 1%float.
Proof.
  intros H. unfold fallback_rates in H.
  apply elem_of_list_to_map_2 in H.
  repeat (apply elem_of_cons in H as [[= -> ->]|H]; [vm_compute; done|]).
  by apply elem_of_nil in H.
Qed.


Lemma rescaled_fallback_returns (base_currency : string) :
  rescaled_fallback base_currency = Return (fallback_table base_currency).
Proof.
  unfold rescaled_fallback, fallback_table.
  destruct (String.eqb_spec base_currency "USD") as [->|Hne]; simpl.
  - reflexivity.
  - rewrite decide_False by done.
    apply for_items_total. intros _ usd_rate.
    unfold PyFloat.div.
    destruct (fallback_rates !! base_currency) as [base_rate|] eqn:Hbase; simpl.
    + by destruct (fallback_rate_known _ _ Hbase) as [-> _].
    + reflexivity.
Qed.


(** A table that comes from the live response has its base forced to 1.0. *)
Lemma live_rates_base (base_currency : string) (data : pyval)
    (table : gmap string float) :
  live_rates base_currency data = Return (Some table) →
  ∃ conversion_rates, table = <[base_currency := 1%float]> conversion_rates.
Proof.
  unfold live_rates.
  destruct (Py.get data "success" (PBool false)) as [success|]; simpl; [|done].
  destruct (Py.truthy success && Py.has_key data "rates"); [|done].
  destruct (Py.getitem data "rates") as [rates|]; simpl; [|done].
  destruct (Py.items rates) as [items|]; simpl; [|done].
  destruct (for_items _ items) as [conversion_rates|]; simpl; [|done].
  intros [= <-]. by exists conversion_rates.
Qed.

Lemma get_currency_conversion_rates_returns (base_currency : string)
    (response : outcome pyval) :
  get_currency_conversion_rates base_currency response
  = Return (default (fallback_table base_currency)
                    (live_table base_currency response)).
Proof.
  unfold get_currency_conversion_rates, live_table.
  destruct response as [data|e]; simpl.
  - destruct (live_rates base_currency data) as [[table|]|e]; simpl;
      auto using rescaled_fallback_returns.
  - apply rescaled_fallback_returns.
Qed.

Lemma pos_not_zero (x : float) :
  PyFloat.is_pos x = true → PyFloat.is_zero x = false.
Proof.
  unfold PyFloat.is_pos, PyFloat.is_zero. rewrite FloatAxioms.ltb_spec, FloatAxioms.eqb_spec.
  change (Prim2SF 0) with (S754_zero false).
  by destruct (Prim2SF x) as [[]|[]| |[] m e].
Qed.




(** What counts as a failed fetch, on examples. *)
Example failed_fetch_cases :
  failed_fetch "EUR" (Raise (Exn URLError "timed out")) = true
  ∧ failed_fetch "EUR" (Return (PList [])) = true
  ∧ failed_fetch "EUR"
      (Return (PDict {[ "rates" := PDict {[ "USD" := PFloat 1.25 ]} ]})) = true
  ∧ failed_fetch "EUR" (Return (PDict {[ "success" := PBool true ]})) = true
  ∧ failed_fetch "EUR"
      (Return (PDict {[ "success" := PBool true; "rates" := PList [] ]})) = true
  ∧ failed_fetch "EUR"
      (Return (PDict {[ "success" := PBool true;
                        "rates" := PDict {[ "USD" := PStr "1.25" ]} ]})) = true
  ∧ failed_fetch "EUR"
      (Return (PDict {[ "success" := PBool true;
                        "rates" := PDict {[ "USD" := PFloat 1.25;
                                            "JPY" := PInt 160 ]} ]})) = false.
Proof. vm_compute. done. Qed.


(** Where the base does map to 1.0: on the live path, and on the fallback
    path for a base the static table has. *)
Lemma base_rate_is_one (base_currency : string) (response : outcome pyval)
    (table : gmap string float) :
  get_currency_conversion_rates base_currency response = Return table →
  is_Some (live_table base_currency response)
  ∨ is_Some (fallback_rates !! base_currency) →
  table !! base_currency = Some 1%float.
Proof.
  rewrite get_currency_conversion_rates_returns. intros [= <-] Hknown.
  destruct (live_table base_currency response) as [table|] eqn:Hlive; simpl.
  - unfold live_table in Hlive.
    destruct response as [data|]; [|done].
    destruct (live_rates base_currency data) as [[table'|]|] eqn:Hdata; [|done..].
    injection Hlive as ->.
    destruct (live_rates_base _ _ _ Hdata) as [c ->]. apply lookup_insert_eq.
  - destruct Hknown as [[? [=]]|[base_rate Hbase]].
    unfold fallback_table. case_decide as Husd.
    + by subst.
    + rewrite lookup_fmap, Hbase. simpl.
      by destruct (fallback_rate_known _ _ Hbase) as [_ ->].
Qed.

(** C3 at a base the static table lacks, with the rate source unreachable:
    the table returned is the static one, still in USD, and has no entry for
    the base. *)
Theorem unknown_base_has_no_entry :
  get_currency_conversion_rates "SEK" (Raise (Exn URLError "timed out"))
  = Return ((λ usd_rate, (usd_rate / 1)%float) <$> fallback_rates)
  ∧ (table ← get_currency_conversion_rates "SEK"
               (Raise (Exn URLError "timed out"));
     Return (table !! "SEK", table !! "USD"))
    = Return (None, Some 1%float).
Proof.
  rewrite get_currency_conversion_rates_returns. split; [reflexivity|].
  vm_compute. reflexivity.
Qed.

(** ** Documents *)

Lemma not_found_data_keys (opportunity_id target_currency now : string) :
  dom (not_found_data opportunity_id target_currency now)
  = list_to_set (core_fields ++ error_fields).
Proof. unfold not_found_data. rewrite dom_list_to_map_L. reflexivity. Qed.

Lemma error_data_keys (opportunity_id target_currency now : string)
    (error_type error_message : string) :
  dom (error_data opportunity_id target_currency now error_type error_message)
  = list_to_set (core_fields ++ error_fields).
Proof. unfold error_data. rewrite dom_list_to_map_L. reflexivity. Qed.

Lemma error_data_status (opportunity_id target_currency now : string)
    (error_type error_message : string) :
  error_data opportunity_id target_currency now error_type error_message
    !! "error_status" = Some (PStr error_type).
Proof. vm_compute. reflexivity. Qed.

Lemma error_fields_not_core (key : string) :
  key ∈ error_fields → key ∉ core_fields.
Proof.
  unfold error_fields. intros H.
  repeat (apply elem_of_cons in H as [->|H];
          [apply not_elem_of_existsb; vm_compute; reflexivity|]).
  by apply elem_of_nil in H.
Qed.

Section Documents.

Variable float_of_str : string → outcome float.

Lemma found_data_keys (result : pyval) (response : outcome pyval)
    (target_currency now : string) (data : gmap string pyval) :
  found_data float_of_str result response target_currency now = Return data →
  dom data = list_to_set core_fields.
Proof.
  unfold found_data. intros H.
  repeat (apply bind_Return in H as (? & _ & H)).
  apply Return_inj in H as <-. rewrite dom_list_to_map_L. reflexivity.
Qed.

(** The three ways [query_opportunity_data] ends. *)
Lemma query_opportunity_data_cases (query response : outcome pyval)
    (now opportunity_id target_currency : string) :
  let doc := query_opportunity_data float_of_str query response now
               opportunity_id target_currency in
  (∃ e, query_body float_of_str query response opportunity_id target_currency now
        = Raise e
        ∧ doc = error_data opportunity_id target_currency now
                  (classify_error (exn_str e)).1 (classify_error (exn_str e)).2)
  ∨ doc = not_found_data opportunity_id target_currency now
  ∨ (∃ result, found_data float_of_str result response target_currency now
               = Return doc).
Proof.
  simpl. unfold query_opportunity_data.
  destruct (query_body _ _ _ _ _ _) as [data|e] eqn:Hbody.
  - right. unfold query_body in Hbody.
    apply bind_Return in Hbody as (result & _ & Hbody).
    apply bind_Return in Hbody as (total & _ & Hbody).
    destruct (Py.eq_zero total).
    + left. by apply Return_inj in Hbody.
    + right. by exists result.
  - left. exists e. split; [done|]. by destruct (classify_error _).
Qed.

End Documents.

(** C1, as the code has it. The not-found and the error documents have one
    and the same set of keys; the document of an opportunity that was found
    has these keys less [error_status] and [error_message], which it never
    carries. *)
Theorem document_keys (float_of_str : string → outcome float)
    (query response : outcome pyval)
    (now opportunity_id target_currency : string) :
  let doc := query_opportunity_data float_of_str query response now
               opportunity_id target_currency in
  let body := query_body float_of_str query response opportunity_id
                target_currency now in
  ((∃ e, body = Raise e) ∧ dom doc = list_to_set (core_fields ++ error_fields))
  ∨ (doc = not_found_data opportunity_id target_currency now
     ∧ dom doc = list_to_set (core_fields ++ error_fields))
  ∨ ((∃ result, found_data float_of_str result response target_currency now
                = Return doc)
     ∧ dom doc = list_to_set core_fields
     ∧ ("error_status" ∉ dom doc) ∧ ("error_message" ∉ dom doc)).
Proof.
  simpl.
  destruct (query_opportunity_data_cases float_of_str query response now
              opportunity_id target_currency)
    as [(e & He & ->)|[->|[result Hfound]]].
  - left. split; [by exists e|]. apply error_data_keys.
  - right. left. split; [done|]. apply not_found_data_keys.
  - right. right. split; [by exists result|].
    rewrite (found_data_keys _ _ _ _ _ _ Hfound).
    split; [done|].
    rewrite !elem_of_list_to_set.
    split; apply error_fields_not_core; unfold error_fields; set_solver.
Qed.

(** C1 as stated fails: an opportunity that is found gives a document of 24
    keys, without [error_status] and [error_message]; one that is not found
    gives a document of 26 keys. *)
Lemma found_document_lacks_error_keys :
  let fetch := Raise (Exn URLError "timed out") in
  let found :=
    query_opportunity_data not_a_number
      (Return (PDict {[ "totalSize" := PInt 1;
                        "records" := PList [ PDict {[
                           "Id" := PStr "006Vv00000ABC123";
                           "Name" := PStr "Renewal";
                           "Amount" := PFloat 100;
                           "CurrencyIsoCode" := PStr "USD" ]} ] ]}))
      fetch "2024-01-01T00:00:00" "006Vv00000ABC123" "USD" in
  let not_found :=
    query_opportunity_data not_a_number
      (Return (PDict {[ "totalSize" := PInt 0; "records" := PList [] ]}))
      fetch "2024-01-01T00:00:00" "006Vv00000ABC123" "USD" in
  found !! "source" = Some (PStr "salesforce_opportunity_integration")
  ∧ found !! "opportunity_name" = Some (PStr "Renewal")
  ∧ found !! "error_status" = None
  ∧ found !! "error_message" = None
  ∧ not_found !! "error_status" = Some (PStr "OPPORTUNITY_NOT_FOUND")
  ∧ not_found !! "error_message" = Some (PStr "opportunity deleted or not found")
  ∧ size (dom found) = 24%nat
  ∧ size (dom not_found) = 26%nat.
Proof. vm_compute. done. Qed.




(** ** The matcher on the shapes of the three patterns *)

Section Matcher.
Local Open Scope list_scope.
Import Regex.

Lemma strip_prefix_Some (w s rest : text) :
  strip_prefix w s = Some rest ↔ s = w ++ rest.
Proof.
  revert s. induction w as [|c w IH]; intros s; simpl.
  - split; congruence.
  - destruct s as [|c' s]; [done|].
    destruct (Ascii.eqb_spec c c') as [->|Hne].
    + rewrite IH. split; congruence.
    + split; [done | congruence].
Qed.

Lemma take_run_length (p : ascii → bool) (n : nat) (s : text) :
  length (take_run p n s) = (n `min` run_length p s)%nat.
Proof.
  revert s. induction n as [|n IH]; intros [|c s]; simpl; try lia.
  destruct (p c); simpl; [rewrite IH|]; lia.
Qed.

Lemma take_run_prefix (p : ascii → bool) (n : nat) (s : text) :
  s = take_run p n s ++ drop (length (take_run p n s)) s.
Proof.
  revert s. induction n as [|n IH]; intros [|c s]; simpl; try done.
  destruct (p c); simpl; [by rewrite <- IH | done].
Qed.

Lemma take_run_Forall (p : ascii → bool) (n : nat) (s : text) :
  Forall (λ c, p c = true) (take_run p n s).
Proof.
  revert s. induction n as [|n IH]; intros [|c s]; simpl; try done.
  destruct (p c) eqn:Hc; [by constructor | done].
Qed.

Lemma run_length_app (p : ascii → bool) (a s : text) :
  Forall (λ c, p c = true) a → (length a ≤ run_length p (a ++ s))%nat.
Proof.
  induction 1 as [|c a Hc _ IH]; simpl; [lia|]. rewrite Hc. lia.
Qed.

(** A literal matches where the input starts with it. *)
Lemma run_lit {A} (w s : text) (gs : list text) (k : cont A) :
  run (lit w) s gs k
  = match strip_prefix w s with
    | Some rest => k w rest gs
    | None => None
    end.
Proof.
  revert s k. induction w as [|c w IH]; intros s k; simpl; [done|].
  destruct s as [|c' s]; [done|].
  destruct (Ascii.eqb_spec c c') as [->|Hne]; [|done].
  by rewrite IH.
Qed.

(** A greedy loop over a character class, followed by something that
    always matches, takes the longest run it is allowed. *)
Lemma repeat_class {A} (p : ascii → bool) (lo : nat) (k : cont A) :
  (∀ t s gs, k t s gs ≠ None) →
  ∀ fuel cnt t s gs,
    repeat (run (Class p)) lo k fuel cnt t s gs
    = let a := take_run p fuel s in
      if (lo <=? cnt + length a)%nat
      then k (t ++ a) (drop (length a) s) gs
      else None.
Proof.
  intros Hk. induction fuel as [|fuel IH]; intros cnt t s gs.
  - simpl. by rewrite Nat.add_0_r, app_nil_r.
  - cbn [repeat]. destruct s as [|c s].
    { simpl. by rewrite Nat.add_0_r, app_nil_r. }
    cbn [run take_run]. destruct (p c).
    + rewrite IH. cbn [length drop]. cbv zeta.
      rewrite <- app_assoc. cbn [app].
      replace (cnt + S (length (take_run p fuel s)))%nat
        with (S cnt + length (take_run p fuel s))%nat by lia.
      destruct (lo <=? S cnt + _)%nat eqn:Hlo.
      * destruct (k _ _ _) eqn:Hres; [done | by apply Hk in Hres].
      * apply Nat.leb_gt in Hlo.
        destruct (Nat.leb_spec lo cnt); [lia | done].
    + simpl. by rewrite Nat.add_0_r, app_nil_r.
Qed.

Lemma run_Cat {A} (r1 r2 : regex) (s : text) (gs : list text) (k : cont A) :
  run (Cat r1 r2) s gs k
  = run r1 s gs (λ t1 s1 gs1, run r2 s1 gs1 (λ t2 s2 gs2, k (t1 ++ t2) s2 gs2)).
Proof. reflexivity. Qed.

Lemma run_Repeat {A} (r : regex) (lo hi : nat) (s : text) (gs : list text)
    (k : cont A) :
  run (Repeat r lo hi) s gs k = repeat (run r) lo k hi 0 [] s gs.
Proof. reflexivity. Qed.

Lemma run_Group {A} (r : regex) (s : text) (gs : list text) (k : cont A) :
  run (Group r) s gs k = run r s gs (λ t s' gs', k t s' (gs' ++ [t])).
Proof. reflexivity. Qed.

(** [w[p]{lo,hi}], the shape of the first pattern. *)
Lemma match_at_lit_repeat (w : text) (p : ascii → bool) (lo hi : nat) (s : text) :
  match_at (Cat (lit w) (Repeat (Class p) lo hi)) s
  = match strip_prefix w s with
    | Some rest =>
        let a := take_run p hi rest in
        if (lo <=? length a)%nat then Some (w ++ a, []) else None
    | None => None
    end.
Proof.
  unfold match_at. rewrite run_Cat, run_lit.
  destruct (strip_prefix w s) as [rest|]; [|done].
  rewrite run_Repeat, repeat_class by done. reflexivity.
Qed.

(** [w([p]{lo,hi})], the shape of the other two. *)
Lemma match_at_lit_group (w : text) (p : ascii → bool) (lo hi : nat) (s : text) :
  match_at (Cat (lit w) (Group (Repeat (Class p) lo hi))) s
  = match strip_prefix w s with
    | Some rest =>
        let a := take_run p hi rest in
        if (lo <=? length a)%nat then Some (w ++ a, [a]) else None
    | None => None
    end.
Proof.
  unfold match_at. rewrite run_Cat, run_lit.
  destruct (strip_prefix w s) as [rest|]; [|done].
  rewrite run_Group, run_Repeat, repeat_class by done. reflexivity.
Qed.

(** [re.search] finds nothing exactly when no position has a match. *)
Lemma search_None (r : regex) (s : text) :
  search r s = None ↔ ∀ n, match_at r (drop n s) = None.
Proof.
  induction s as [|c s IH]; simpl.
  - split.
    + intros H n. rewrite drop_nil. by destruct (match_at r []).
    + intros H. specialize (H 0%nat). simpl in H. by rewrite H.
  - destruct (match_at r (c :: s)) eqn:Hhere.
    + split; [done|]. intros H. specialize (H 0%nat). simpl in H. congruence.
    + rewrite IH. split.
      * intros H [|n]; [done | apply H].
      * intros H n. apply (H (S n)).
Qed.

Lemma search_Some (r : regex) (s : text) (m : match_object) :
  search r s = Some m → ∃ n, match_at r (drop n s) = Some m.
Proof.
  induction s as [|c s IH]; simpl.
  - destruct (match_at r []) eqn:Hhere; [|done].
    intros [= <-]. by exists 0%nat.
  - destruct (match_at r (c :: s)) eqn:Hhere.
    + intros [= <-]. by exists 0%nat.
    + intros [n Hn]%IH. by exists (S n).
Qed.

End Matcher.

(** ** The extractor *)

Section Extractor.
Local Open Scope list_scope.
Import Regex.

Lemma chars_app (a b : string) : chars (a +:+ b) = chars a ++ chars b.
Proof. unfold chars. induction a as [|c a IH]; simpl; [done | by rewrite IH]. Qed.

Lemma string_of_list_ascii_app (a b : text) :
  string_of_list_ascii (a ++ b)
  = string_of_list_ascii a +:+ string_of_list_ascii b.
Proof. induction a as [|c a IH]; simpl; [done | by rewrite IH]. Qed.

Lemma startswith_chars (p : string) (a : text) :
  PyStr.startswith (string_of_list_ascii a) p = true ↔ ∃ a', a = chars p ++ a'.
Proof.
  unfold PyStr.startswith, chars. revert a.
  induction p as [|c p IH]; intros a.
  - destruct a; simpl; split; eauto.
  - destruct a as [|c' a]; simpl.
    + split; [done | by intros [? ?]].
    + destruct (ascii_dec c c') as [->|Hne].
      * rewrite IH. split; intros [a' Ha]; exists a'; congruence.
      * split; [done | intros [a' Ha]; congruence].
Qed.

Lemma search_id_None (s : text) :
  search (Cat (lit (chars "006")) (Repeat (Class alnum) 12 15)) s = None
  ↔ no_id s.
Proof.
  rewrite search_None. unfold no_id. split.
  - intros H pre suf ->. specialize (H (length pre)).
    rewrite drop_app_length, match_at_lit_repeat in H.
    rewrite (proj2 (strip_prefix_Some _ _ suf) eq_refl) in H. cbv zeta in H.
    destruct (Nat.leb_spec 12 (length (take_run alnum 15 suf))) as [|Hlt];
      [done|].
    rewrite take_run_length in Hlt. lia.
  - intros H n. rewrite match_at_lit_repeat.
    destruct (strip_prefix _ _) as [rest|] eqn:Hrest; [|done].
    apply strip_prefix_Some in Hrest. cbv zeta.
    destruct (Nat.leb_spec 12 (length (take_run alnum 15 rest))) as [Hge|];
      [|done].
    rewrite take_run_length in Hge.
    specialize (H (take n s) rest). rewrite <- Hrest, take_drop in H.
    specialize (H eq_refl). lia.
Qed.

Lemma search_id_Some (s : text) (m : match_object) :
  search (Cat (lit (chars "006")) (Repeat (Class alnum) 12 15)) s = Some m →
  PyStr.startswith (matched_id m) "006" = true.
Proof.
  intros [n Hn]%search_Some. rewrite match_at_lit_repeat in Hn.
  destruct (strip_prefix _ _) as [rest|]; [|done]. cbv zeta in Hn.
  destruct (_ <=? _)%nat; [|done]. injection Hn as <-.
  unfold matched_id. cbn [snd fst].
  apply startswith_chars. eauto.
Qed.

(** A path segment caught by one of the other two patterns does not start
    with "006" unless the first pattern has matched already. *)
Lemma search_segment (w : text) (s : text) (m : match_object) :
  no_id s →
  search (Cat (lit w) (Group (Repeat (Class alnum) 15 18))) s = Some m →
  PyStr.startswith (matched_id m) "006" = false.
Proof.
  intros Hno [n Hn]%search_Some. rewrite match_at_lit_group in Hn.
  destruct (strip_prefix _ _) as [rest|] eqn:Hrest; [|done]. cbv zeta in Hn.
  apply strip_prefix_Some in Hrest.
  pose proof (take_run_prefix alnum 18 rest) as Hsplit.
  pose proof (take_run_Forall alnum 18 rest) as Hall.
  set (a := take_run alnum 18 rest) in *.
  destruct (Nat.leb_spec 15 (length a)) as [Hlen|]; [|done].
  injection Hn as <-. unfold matched_id. cbn [snd].
  apply not_true_is_false. intros [a' Ha]%startswith_chars.
  rewrite Ha in Hall. apply Forall_app in Hall as [_ Hall].
  pose proof (run_length_app alnum a' (drop (length a) rest) Hall) as Hrun.
  assert (length a = 3 + length a')%nat as Hlen'
    by (by rewrite Ha, length_app).
  enough (run_length alnum (a' ++ drop (length a) rest) < 12)%nat by lia.
  apply (Hno (take n s ++ w)).
  rewrite <- (take_drop n s) at 1. rewrite Hrest.
  rewrite Hsplit at 1. rewrite Ha at 1. by rewrite <- !app_assoc.
Qed.

Lemma no_id_strings (url : string) :
  no_id (chars url)
  ↔ ∀ pre suf : string,
      url = pre +:+ "006" +:+ suf → (alnum_run suf < 12)%nat.
Proof.
  unfold no_id, alnum_run. split.
  - intros H pre suf ->. apply (H (chars pre)). by rewrite !chars_app.
  - intros H pre suf Hurl.
    specialize (H (string_of_list_ascii pre) (string_of_list_ascii suf)).
    unfold chars in H at 1. rewrite list_ascii_of_string_of_list_ascii in H.
    apply H.
    rewrite <- (string_of_list_ascii_of_string url).
    fold (chars url). rewrite Hurl.
    by rewrite !string_of_list_ascii_app.
Qed.

End Extractor.

Section ExtractorClaims.
Local Open Scope list_scope.
Import Regex.

Lemma every_id_run_spec (ok : nat → bool) (s : text) :
  every_id_run ok s = true →
  ∀ pre suf, s = pre ++ chars "006" ++ suf → ok (run_length alnum suf) = true.
Proof.
  induction s as [|c s IH]; cbn [every_id_run];
    intros [Hhere Hrest]%andb_true_iff pre suf Hs.
  - destruct pre; discriminate Hs.
  - destruct pre as [|c' pre].
    + rewrite (proj2 (strip_prefix_Some _ _ suf) Hs) in Hhere. done.
    + injection Hs as -> Hs. by apply (IH Hrest pre).
Qed.

(** C9, as the code has it. The extractor finds nothing exactly in the
    strings where no "006" is followed by twelve letters or digits: those
    without "006", and those where each "006" starts a run of fewer than 15
    characters. *)
Theorem no_id_not_found (url : string) :
  extract_opportunity_id url = None
  ↔ ∀ pre suf : string,
      url = pre +:+ "006" +:+ suf → (alnum_run suf < 12)%nat.
Proof.
  rewrite <- no_id_strings.
  unfold extract_opportunity_id, patterns. cbn [first_id]. split.
  - intros H. apply search_id_None.
    destruct (search _ (chars url)) as [m|] eqn:Hm; [|done].
    by rewrite (search_id_Some _ _ Hm) in H.
  - intros Hno. rewrite (proj2 (search_id_None _) Hno).
    destruct (search (Cat (lit (chars "/Opportunity/")) _) _) as [m|] eqn:Hm;
      [rewrite (search_segment _ _ _ Hno Hm)|];
      (destruct (search (Cat (lit (chars "Opportunity%2F")) _) _)
         as [m'|] eqn:Hm';
       [by rewrite (search_segment _ _ _ Hno Hm') | done]).
Qed.

(** C9 as stated fails on a run that is too long: the pattern is not
    anchored at the end, so of "006" and twenty letters and digits (23
    characters) the first 18 are returned. *)
Lemma overlong_id_is_cut :
  let url := "/Opportunity/006Vv00000ABC123XYZ9876/view" in
  (∀ pre suf : string,
     url = pre +:+ "006" +:+ suf →
     (3 + alnum_run suf < 15 ∨ 18 < 3 + alnum_run suf)%nat)
  ∧ extract_opportunity_id url = Some "006Vv00000ABC123XY".
Proof.
  intros url. split; [|vm_compute; reflexivity].
  intros pre suf Hurl. unfold alnum_run.
  assert (every_id_run (λ n, (3 + n <? 15)%nat || (18 <? 3 + n)%nat)
            (chars url) = true) as Hall by (vm_compute; reflexivity).
  pose proof (every_id_run_spec _ _ Hall (chars pre) (chars suf)) as H.
  rewrite Hurl, !chars_app in H. specialize (H eq_refl).
  apply orb_true_iff in H as [H%Nat.ltb_lt|H%Nat.ltb_lt]; auto.
Qed.

End ExtractorClaims.

(** ** The extractor: what it returns *)

Section ExtractorResults.
Local Open Scope list_scope.
Import Regex.

Lemma length_string_of_list_ascii (a : text) :
  String.length (string_of_list_ascii a) = length a.
Proof. induction a as [|c a IH]; simpl; [done | by rewrite IH]. Qed.

Lemma string_of_chars (s : string) : string_of_list_ascii (chars s) = s.
Proof. apply string_of_list_ascii_of_string. Qed.

Lemma chars_of_string (a : text) : chars (string_of_list_ascii a) = a.
Proof. apply list_ascii_of_string_of_list_ascii. Qed.

Lemma search_here (r : regex) (s : text) (m : match_object) :
  match_at r s = Some m → search r s = Some m.
Proof. intros H. destruct s; simpl; by rewrite H. Qed.

(** Positions without a match are passed over. *)
Lemma search_skip (r : regex) (pre rest : text) :
  (∀ n, (n < length pre)%nat → match_at r (drop n (pre ++ rest)) = None) →
  search r (pre ++ rest) = search r rest.
Proof.
  induction pre as [|c pre IH]; intros H; [done|].
  pose proof (H 0%nat ltac:(simpl; lia)) as H0. simpl in H0.
  cbn [app search]. rewrite H0.
  apply IH. intros n Hn. apply (H (S n)). simpl; lia.
Qed.

(** What the first pattern matches: "006", then the longest run of letters
    and digits up to fifteen, of which there are twelve at least. *)
Lemma search_id_Some_inv (s : text) (m : match_object) :
  search (Cat (lit (chars "006")) (Repeat (Class alnum) 12 15)) s = Some m →
  ∃ n rest,
    drop n s = chars "006" ++ rest
    ∧ m = (chars "006" ++ take_run alnum 15 rest, [])
    ∧ (12 ≤ length (take_run alnum 15 rest))%nat.
Proof.
  intros [n Hn]%search_Some. rewrite match_at_lit_repeat in Hn.
  destruct (strip_prefix _ _) as [rest|] eqn:Hrest; [|done]. cbv zeta in Hn.
  apply strip_prefix_Some in Hrest.
  destruct (Nat.leb_spec 12 (length (take_run alnum 15 rest))); [|done].
  injection Hn as <-. by exists n, rest.
Qed.

Lemma take_run_all (p : ascii → bool) (n : nat) (a suf : text) :
  Forall (λ c, p c = true) a →
  (length a ≤ n)%nat →
  (length a = n ∨ run_length p suf = 0)%nat →
  take_run p n (a ++ suf) = a.
Proof.
  intros Ha. revert n.
  induction Ha as [|c a Hc _ IH]; intros n Hn Hend; simpl in *.
  - destruct n as [|n]; [done|]. destruct Hend as [|Hend]; [done|].
    destruct suf as [|c suf]; [done|]. simpl in *. by destruct (p c).
  - destruct n as [|n]; [lia|]. simpl. rewrite Hc, IH; [done | lia | lia].
Qed.

End ExtractorResults.

Section ExtractorExtras.
Local Open Scope list_scope.
Import Regex.

Lemma forallb_Forall_true (p : ascii → bool) (a : text) :
  forallb p a = true ↔ Forall (λ c, p c = true) a.
Proof.
  induction a as [|c a IH]; simpl; [by split|].
  rewrite andb_true_iff, IH, Forall_cons. done.
Qed.

Lemma extract_None_no_id (url : string) :
  extract_opportunity_id url = None ↔ no_id (chars url).
Proof.
  unfold extract_opportunity_id, patterns. cbn [first_id]. split.
  - intros H. apply search_id_None.
    destruct (search _ (chars url)) as [m|] eqn:Hm; [|done].
    by rewrite (search_id_Some _ _ Hm) in H.
  - intros Hno. rewrite (proj2 (search_id_None _) Hno).
    destruct (search (Cat (lit (chars "/Opportunity/")) _) _) as [m|] eqn:Hm;
      [rewrite (search_segment _ _ _ Hno Hm)|];
      (destruct (search (Cat (lit (chars "Opportunity%2F")) _) _)
         as [m'|] eqn:Hm';
       [by rewrite (search_segment _ _ _ Hno Hm') | done]).
Qed.

(** An id that is found comes from the first pattern. *)
Lemma extract_Some_inv (url id : string) :
  extract_opportunity_id url = Some id →
  ∃ n rest,
    drop n (chars url) = chars "006" ++ rest
    ∧ chars id = chars "006" ++ take_run alnum 15 rest
    ∧ (12 ≤ length (take_run alnum 15 rest))%nat.
Proof.
  intros H.
  destruct (search (Cat (lit (chars "006")) (Repeat (Class alnum) 12 15))
              (chars url)) as [m|] eqn:Hm.
  - unfold extract_opportunity_id, patterns in H. cbn [first_id] in H.
    rewrite Hm, (search_id_Some _ _ Hm) in H. injection H as <-.
    destruct (search_id_Some_inv _ _ Hm) as (n & rest & Hdrop & -> & Hlen).
    exists n, rest. unfold matched_id. cbn [fst snd].
    by rewrite chars_of_string.
  - apply search_id_None, extract_None_no_id in Hm. congruence.
Qed.

Lemma extracted_shape_nonempty (url id : string) :
  extract_opportunity_id url = Some id → id ≠ "".
Proof.
  intros (n & rest & _ & Hid & _)%extract_Some_inv Hempty.
  by rewrite Hempty in Hid.
Qed.

(** X1. An id that is returned starts with "006", has 15 to 18 characters,
    all of them letters or digits, and is a piece of the input. *)
Theorem extracted_id_shape (url id : string) :
  extract_opportunity_id url = Some id →
  PyStr.startswith id "006" = true
  ∧ (15 ≤ String.length id ≤ 18)%nat
  ∧ forallb alnum (chars id) = true
  ∧ ∃ pre suf : string, url = pre +:+ id +:+ suf.
Proof.
  intros (n & rest & Hdrop & Hid & Hlen)%extract_Some_inv.
  pose proof (take_run_length alnum 15 rest) as Hmin.
  pose proof (take_run_Forall alnum 15 rest) as Hall.
  pose proof (take_run_prefix alnum 15 rest) as Hsplit.
  set (a := take_run alnum 15 rest) in *.
  repeat split.
  - rewrite <- (string_of_chars id), Hid. apply startswith_chars. eauto.
  - rewrite <- (string_of_chars id), length_string_of_list_ascii, Hid,
      length_app. simpl. lia.
  - rewrite <- (string_of_chars id), length_string_of_list_ascii, Hid,
      length_app. simpl. lia.
  - rewrite Hid, forallb_app. apply andb_true_iff. split; [done|].
    by apply forallb_Forall_true.
  - exists (string_of_list_ascii (take n (chars url))),
           (string_of_list_ascii (drop (length a) rest)).
    rewrite <- (string_of_chars url) at 1.
    rewrite <- (string_of_chars id), <- !string_of_list_ascii_app.
    f_equal. rewrite <- (take_drop n (chars url)) at 1.
    rewrite Hdrop, Hid, Hsplit at 1. by rewrite <- !app_assoc.
Qed.

Lemma extracted_id_shape_witness :
  let id := "006Vv00000ABC123" in
  PyStr.startswith id "006" = true
  ∧ (15 ≤ String.length id ≤ 18)%nat
  ∧ forallb alnum (chars id) = true
  ∧ ∃ pre suf : string,
      "https://elastic.lightning.force.com/lightning/r/Opportunity/006Vv00000ABC123/view"
      = pre +:+ id +:+ suf.
Proof.
  apply (extracted_id_shape
           "https://elastic.lightning.force.com/lightning/r/Opportunity/006Vv00000ABC123/view").
  vm_compute. reflexivity.
Defined.

Lemma prefix_append (w b : string) : String.prefix w (w +:+ b) = true.
Proof.
  induction w as [|c w IH]; simpl; [by destruct b|].
  by destruct (ascii_dec c c).
Qed.

Lemma contains_prefix (w h : string) :
  String.prefix w h = true → PyStr.contains w h = true.
Proof. intros H. destruct h; simpl in *; by rewrite H. Qed.

Lemma contains_intro (w a b : string) : PyStr.contains w (a +:+ w +:+ b) = true.
Proof.
  induction a as [|c a IH]; simpl.
  - apply contains_prefix. exact (prefix_append w b).
  - change (PyStr.contains w (String c (a +:+ w +:+ b)) = true).
    simpl. rewrite IH. apply orb_true_r.
Qed.

(** "006" does not begin before the end of a text that has no "006" and is
    followed by "006". *)
Lemma no_early_id (pre rest : text) (n : nat) :
  PyStr.contains "006" (string_of_list_ascii pre) = false →
  (n < length pre)%nat →
  strip_prefix (chars "006") (drop n (pre ++ chars "006" ++ rest)) = None.
Proof.
  intros Hpre Hn. rewrite drop_app_le by lia.
  destruct (strip_prefix _ _) as [tail|] eqn:Htail; [|done].
  apply strip_prefix_Some in Htail. exfalso.
  assert (drop n pre ≠ []) as Hne.
  { intros Hnil%(f_equal length). rewrite length_drop in Hnil. simpl in Hnil. lia. }
  destruct (drop n pre) as [|c1 [|c2 [|c3 l]]] eqn:Hl; [done|..];
    simpl in Htail; try (injection Htail as ? ? ?; congruence).
  injection Htail as -> -> -> _.
  rewrite <- (take_drop n pre), Hl in Hpre.
  rewrite string_of_list_ascii_app in Hpre. simpl in Hpre.
  change (String "0" (String "0" (String "6" (string_of_list_ascii l))))
    with ("006" +:+ string_of_list_ascii l) in Hpre.
  by rewrite contains_intro in Hpre.
Qed.

(** X2. An id of the right shape, "006" and 12 to 15 letters or digits, is
    returned as it is from any string that holds it after a text without
    "006", when the id is 18 characters long or is followed by the end of the
    string or by something that is not a letter or digit. *)
Theorem embedded_id_extracted (pre a suf : string) :
  PyStr.contains "006" pre = false →
  forallb alnum (chars a) = true →
  (12 ≤ String.length a ≤ 15)%nat →
  (String.length a = 15 ∨ alnum_run suf = 0)%nat →
  extract_opportunity_id (pre +:+ "006" +:+ a +:+ suf) = Some ("006" +:+ a).
Proof.
  intros Hpre Ha Hlen Hend.
  rewrite <- (string_of_chars a), length_string_of_list_ascii in Hlen, Hend.
  apply forallb_Forall_true in Ha.
  rewrite <- (string_of_chars pre) in Hpre.
  unfold extract_opportunity_id, patterns. cbn [first_id].
  rewrite !chars_app.
  rewrite search_skip.
  2: { intros n Hn. rewrite match_at_lit_repeat.
       by rewrite (no_early_id _ _ _ Hpre Hn). }
  rewrite (search_here _ _ (chars "006" ++ chars a, [])).
  2: { rewrite match_at_lit_repeat.
       rewrite (proj2 (strip_prefix_Some _ _ (chars a ++ chars suf)) eq_refl).
       cbv zeta. rewrite take_run_all by (done || lia).
       destruct (Nat.leb_spec 12 (length (chars a))); [done | lia]. }
  unfold matched_id. cbn [fst snd].
  rewrite string_of_list_ascii_app, !string_of_chars.
  replace (PyStr.startswith ("006" +:+ a) "006") with true; [done|].
  symmetry. apply prefix_append.
Qed.

Lemma embedded_id_extracted_witness :
  extract_opportunity_id
    ("https://elastic.my.salesforce.com/lightning/r/Opportunity/"
       +:+ "006" +:+ "Vv00000ABC123XY" +:+ "/view")
  = Some ("006" +:+ "Vv00000ABC123XY").
Proof.
  apply embedded_id_extracted; [vm_compute; reflexivity.. | simpl; lia | right; reflexivity].
Defined.

Lemma json_segment (w : text) (url : string) (m : match_object) :
  no_id (chars url) →
  search (Cat (lit w) (Group (Repeat (Class alnum) 15 18))) (chars url) = Some m →
  PyStr.startswith (matched_id m) "006"
  && (15 <=? String.length (matched_id m))%nat = false.
Proof. intros Hno Hm. by rewrite (search_segment _ _ _ Hno Hm). Qed.

(** X3. The extractor of [sf_to_json.py], which tries the same shapes in
    another order and checks the length again, finds an id in exactly the
    strings in which the extractor of [sf_to_elasticsearch.py] finds one. *)
Theorem extractors_find_in_the_same_strings (url : string) :
  SfToJson.extract_opportunity_id url = None
  ↔ extract_opportunity_id url = None.
Proof.
  rewrite extract_None_no_id.
  unfold SfToJson.extract_opportunity_id, SfToJson.patterns.
  cbn [SfToJson.first_id]. split.
  - intros H. apply search_id_None.
    destruct (search (Cat (lit (chars "006")) _) (chars url)) as [m|] eqn:Hm;
      [|done].
    exfalso.
    destruct (search_id_Some_inv _ _ Hm) as (n & rest & _ & Hm' & Hlen).
    set (a := take_run alnum 15 rest) in *.
    rewrite (search_id_Some _ _ Hm) in H.
    replace (15 <=? String.length (matched_id m))%nat with true in H.
    2: { symmetry. apply Nat.leb_le. rewrite Hm'. unfold matched_id.
         cbn [fst snd]. rewrite length_string_of_list_ascii, length_app.
         simpl. lia. }
    simpl in H. repeat case_match; done.
  - intros Hno. rewrite (proj2 (search_id_None _) Hno).
    destruct (search (Cat (lit (chars "/")) _) _) as [m|] eqn:Hm;
      [rewrite (json_segment _ _ _ Hno Hm)|];
      (destruct (search (Cat (lit (chars "/Opportunity/")) _) _)
         as [m'|] eqn:Hm';
       [by rewrite (json_segment _ _ _ Hno Hm') | done]).
Qed.

End ExtractorExtras.

(** ** URL validation and the URL file *)

Lemma prefix_elim (w h : string) :
  String.prefix w h = true → ∃ b, h = w +:+ b.
Proof.
  revert h. induction w as [|c w IH]; intros h; simpl.
  - intros _. by exists h.
  - destruct h as [|c' h]; simpl; [done|].
    destruct (ascii_dec c c') as [->|]; [|done].
    intros [b ->]%IH. by exists b.
Qed.

Lemma contains_elim (w h : string) :
  PyStr.contains w h = true → ∃ a b, h = a +:+ w +:+ b.
Proof.
  induction h as [|c h IH].
  - destruct w; simpl; [|done]. intros _. by exists "", "".
  - cbn [PyStr.contains]. intros [[b Hb]%prefix_elim | [a [b ->]]%IH]%orb_true_iff.
    + by exists "", b.
    + by exists (String c a), b.
Qed.

Lemma lower_char_not_upper (c : ascii) : is_upper (PyStr.lower_char c) = false.
Proof. by destruct c as [[] [] [] [] [] [] [] []]. Qed.

Lemma lower_not_upper (s : string) : existsb is_upper (chars (PyStr.lower s)) = false.
Proof.
  induction s as [|c s IH]; simpl; [done|].
  by rewrite lower_char_not_upper, IH.
Qed.

(** Nothing with a capital letter in it is found in a lowered string. *)
Lemma contains_lower_upper (w s : string) :
  existsb is_upper (chars w) = true → PyStr.contains w (PyStr.lower s) = false.
Proof.
  intros Hw. apply not_true_is_false. intros (a & b & Heq)%contains_elim.
  pose proof (lower_not_upper s) as Hs.
  rewrite Heq, !chars_app, !existsb_app, Hw in Hs.
  by rewrite orb_true_r in Hs.
Qed.

(** A valid URL has an id. *)
Lemma valid_url_has_id (url : string) :
  validate_opportunity_url (PStr url) = true →
  is_Some (extract_opportunity_id url).
Proof.
  unfold validate_opportunity_url.
  destruct (negb _); [done|].
  intros [_ H]%andb_true_iff.
  destruct (extract_opportunity_id url); [by eexists | done].
Qed.

(** X4. A URL is valid exactly when, lowered, it has ".salesforce.com" or
    ".lightning.force.com" in it and an opportunity id can be extracted from
    it. The two path indicators, written with capitals and looked for in the
    lowered URL, never count. *)
Theorem valid_url_needs_salesforce_host (url : string) :
  validate_opportunity_url (PStr url) = true
  ↔ (PyStr.contains ".salesforce.com" (PyStr.lower url) = true
     ∨ PyStr.contains ".lightning.force.com" (PyStr.lower url) = true)
    ∧ is_Some (extract_opportunity_id url).
Proof.
  unfold validate_opportunity_url, salesforce_indicators. cbn [existsb].
  rewrite (contains_lower_upper "/lightning/r/Opportunity/") by reflexivity.
  rewrite (contains_lower_upper "Opportunity%2F") by reflexivity.
  rewrite !orb_false_r.
  destruct (Py.truthy (PStr url)) eqn:Hurl; simpl.
  - rewrite andb_true_iff, orb_true_iff.
    destruct (extract_opportunity_id url); simpl;
      split; intros [? ?]; split; try done; by eexists.
  - split; [done|]. intros [_ [id Hid]].
    simpl in Hurl. apply negb_false_iff, String.eqb_eq in Hurl. by subst.
Qed.


Lemma read_lines_valid (lines : list string) (url : string) :
  url ∈ read_lines lines →
  validate_opportunity_url (PStr url) = true
  ∧ PyStr.startswith url "#" = false
  ∧ ∃ line, line ∈ lines ∧ url = PyStr.strip line.
Proof.
  induction lines as [|line lines IH]; cbn [read_lines]; [by intros ?%elem_of_nil|].
  assert (url ∈ read_lines lines →
          validate_opportunity_url (PStr url) = true
          ∧ PyStr.startswith url "#" = false
          ∧ ∃ l, l ∈ line :: lines ∧ url = PyStr.strip l) as IH'.
  { intros (? & ? & l & ? & ?)%IH. repeat split; [done..|].
    exists l. split; [by apply elem_of_cons; right | done]. }
  destruct (negb _ || _) eqn:Hskip; [exact IH'|].
  apply orb_false_elim in Hskip as [_ Hcomment].
  destruct (validate_opportunity_url (PStr (PyStr.strip line))) eqn:Hvalid;
    [|exact IH'].
  intros [->|?]%elem_of_cons; [|auto].
  repeat split; [done..|]. exists line. split; [apply elem_of_cons; by left | done].
Qed.

(** X5. Every URL that [read_urls_from_file] returns is a line of the file
    with the blanks around it removed, is not a comment, passes the URL
    validation and therefore has an opportunity id in it. *)
Theorem urls_read_are_valid (file : outcome (list string)) (url : string) :
  url ∈ read_urls_from_file file →
  validate_opportunity_url (PStr url) = true
  ∧ is_Some (extract_opportunity_id url)
  ∧ PyStr.startswith url "#" = false
  ∧ ∃ lines line, file = Return lines ∧ line ∈ lines ∧ url = PyStr.strip line.
Proof.
  destruct file as [lines|e]; simpl; [|by intros ?%elem_of_nil].
  intros (Hvalid & Hcomment & line & Hline & ->)%read_lines_valid.
  repeat split; [done | by apply valid_url_has_id | done |].
  by exists lines, line.
Qed.

Lemma urls_read_are_valid_witness :
  let file :=
    Return
      [ "# opportunities of the week";
        "";
        "  https://elastic.lightning.force.com/lightning/r/Opportunity/006Vv00000ABC123/view  ";
        "https://example.com/lightning/r/Opportunity/006Vv00000DEF456/view";
        "https://elastic.my.salesforce.com/001Vv00000ABC123" ] in
  let url :=
    "https://elastic.lightning.force.com/lightning/r/Opportunity/006Vv00000ABC123/view" in
  read_urls_from_file file = [url]
  ∧ validate_opportunity_url (PStr url) = true
  ∧ is_Some (extract_opportunity_id url)
  ∧ PyStr.startswith url "#" = false
  ∧ ∃ lines line, file = Return lines ∧ line ∈ lines ∧ url = PyStr.strip line.
Proof.
  intros file url.
  assert (read_urls_from_file file = [url]) as Hread by (vm_compute; reflexivity).
  split; [done|].
  apply (urls_read_are_valid file url). rewrite Hread. apply elem_of_cons. by left.
Defined.

(** ** The target currency *)

Lemma upper_char_idem (c : ascii) :
  PyStr.upper_char (PyStr.upper_char c) = PyStr.upper_char c.
Proof. by destruct c as [[] [] [] [] [] [] [] []]. Qed.

Lemma is_space_upper_char (c : ascii) :
  PyStr.is_space (PyStr.upper_char c) = PyStr.is_space c.
Proof. by destruct c as [[] [] [] [] [] [] [] []]. Qed.

Lemma upper_idem (s : string) : PyStr.upper (PyStr.upper s) = PyStr.upper s.
Proof. induction s as [|c s IH]; simpl; [done|]. by rewrite upper_char_idem, IH. Qed.

Lemma upper_lstrip (s : string) :
  PyStr.upper (PyStr.lstrip s) = PyStr.lstrip (PyStr.upper s).
Proof.
  induction s as [|c s IH]; simpl; [done|].
  rewrite is_space_upper_char. by destruct (PyStr.is_space c).
Qed.

Lemma upper_rstrip (s : string) :
  PyStr.upper (PyStr.rstrip s) = PyStr.rstrip (PyStr.upper s).
Proof.
  induction s as [|c s IH]; simpl; [done|].
  rewrite <- IH, is_space_upper_char.
  destruct (PyStr.rstrip s); simpl; [by destruct (PyStr.is_space c) | done].
Qed.

Lemma lstrip_no_leading_space (s : string) : no_leading_space (PyStr.lstrip s).
Proof.
  induction s as [|c s IH]; simpl; [done|].
  by destruct (PyStr.is_space c) eqn:Hc.
Qed.

Lemma lstrip_id (s : string) : no_leading_space s → PyStr.lstrip s = s.
Proof. destruct s as [|c s]; simpl; [done|]. by intros ->. Qed.

Lemma rstrip_no_leading_space (s : string) :
  no_leading_space s → no_leading_space (PyStr.rstrip s).
Proof.
  destruct s as [|c s]; simpl; [done|]. intros Hc.
  destruct (PyStr.rstrip s); simpl; by rewrite ?Hc.
Qed.

Lemma rstrip_idem (s : string) : PyStr.rstrip (PyStr.rstrip s) = PyStr.rstrip s.
Proof.
  induction s as [|c s IH]; simpl; [done|].
  destruct (PyStr.rstrip s) as [|d r] eqn:Hr.
  - destruct (PyStr.is_space c) eqn:Hc; simpl; [done | by rewrite Hc].
  - cbn [PyStr.rstrip]. cbn [PyStr.rstrip] in IH. by rewrite IH.
Qed.

Lemma strip_idem (s : string) : PyStr.strip (PyStr.strip s) = PyStr.strip s.
Proof.
  unfold PyStr.strip.
  rewrite (lstrip_id (PyStr.rstrip _)), rstrip_idem; [done|].
  apply rstrip_no_leading_space, lstrip_no_leading_space.
Qed.

Lemma normalized_idem (code : string) : normalized (normalized code) = normalized code.
Proof.
  unfold normalized, PyStr.strip.
  by rewrite upper_rstrip, upper_lstrip, upper_idem,
    (lstrip_id (PyStr.rstrip _)), rstrip_idem
    by apply rstrip_no_leading_space, lstrip_no_leading_space.
Qed.

(** X6. The currency code taken from the command line, the environment or
    the default is in normal form: upper case, no blanks around it. The
    converter's own normalization leaves it as it is. *)
Theorem target_currency_is_normalized (args : option arguments)
    (env : gmap string string) :
  normalized (get_target_currency_from_config args env)
  = get_target_currency_from_config args env.
Proof.
  unfold get_target_currency_from_config.
  destruct (negb (missing _)); [apply normalized_idem|].
  destruct (Py.truthy _); [apply normalized_idem | reflexivity].
Qed.

(** X7. Without a value on the command line the code is never empty: an
    environment value that is missing or blank gives USD. *)
Theorem target_currency_without_argument (args : option arguments)
    (env : gmap string string) :
  missing (args ≫= args_target_currency) = true →
  let code := get_target_currency_from_config args env in
  Py.truthy (PStr code) = true
  ∧ (normalized (default "" (env !! "SF_TARGET_CURRENCY")) = "" → code = "USD").
Proof.
  intros Hmissing. unfold get_target_currency_from_config.
  replace (match args with Some a => args_target_currency a | None => None end)
    with (args ≫= args_target_currency) by (by destruct args).
  rewrite Hmissing. cbn [negb]. cbv zeta.
  destruct (Py.truthy (PStr (normalized _))) eqn:Henv.
  - split; [done|]. intros Hblank. by rewrite Hblank in Henv.
  - done.
Qed.

Lemma target_currency_without_argument_witness :
  let env : gmap string string := {[ "SF_TARGET_CURRENCY" := "   " ]} in
  let code :=
    get_target_currency_from_config (Some (Arguments true (Some ""))) env in
  Py.truthy (PStr code) = true
  ∧ (normalized (default "" (env !! "SF_TARGET_CURRENCY")) = "" → code = "USD").
Proof.
  apply (target_currency_without_argument (Some (Arguments true (Some "")))
           {[ "SF_TARGET_CURRENCY" := "   " ]}).
  reflexivity.
Defined.

(** ** Processing one URL *)

Lemma error_data_message (opportunity_id target_currency now : string)
    (error_type error_message : string) :
  error_data opportunity_id target_currency now error_type error_message
    !! "error_message" = Some (PStr error_message).
Proof. vm_compute. reflexivity. Qed.

Lemma not_found_data_status (opportunity_id target_currency now : string) :
  not_found_data opportunity_id target_currency now !! "error_status"
  = Some (PStr "OPPORTUNITY_NOT_FOUND")
  ∧ not_found_data opportunity_id target_currency now !! "error_message"
    = Some (PStr "opportunity deleted or not found").
Proof. vm_compute. done. Qed.

Section ProcessingFacts.

Variable float_of_str : string → outcome float.
Variable str_other : pyval → string.
Variable sf : string → outcome pyval.
Variable rate_source : string → outcome pyval.
Variable now : string.
Variable env : gmap string string.

(** Every document has the key [opportunity_id]. *)
Lemma document_has_id (query response : outcome pyval)
    (opportunity_id target_currency : string) :
  "opportunity_id"
  ∈ dom (query_opportunity_data float_of_str query response now
           opportunity_id target_currency).
Proof.
  destruct (query_opportunity_data_cases float_of_str query response now
              opportunity_id target_currency)
    as [(e & _ & Hdoc)|[Hdoc|[result Hdoc]]].
  - rewrite Hdoc, error_data_keys, elem_of_list_to_set. apply list_elem_of_here.
  - rewrite Hdoc, not_found_data_keys, elem_of_list_to_set.
    apply list_elem_of_here.
  - rewrite (found_data_keys _ _ _ _ _ _ Hdoc), elem_of_list_to_set.
    apply list_elem_of_here.
Qed.

(** The mapper never returns an empty document. *)
Lemma document_non_empty (query response : outcome pyval)
    (opportunity_id target_currency : string) :
  Py.truthy (PDict (query_opportunity_data float_of_str query response now
                      opportunity_id target_currency)) = true.
Proof.
  simpl. apply negb_true_iff, bool_decide_eq_false. intros Hempty.
  pose proof (document_has_id query response opportunity_id target_currency)
    as Hid.
  rewrite Hempty, dom_empty_L in Hid. by apply not_elem_of_empty in Hid.
Qed.

(** A document carries an error status, and then an error message that is a
    string, exactly when it is not that of an opportunity that was found. *)
Lemma document_error_status (query response : outcome pyval)
    (opportunity_id target_currency : string) :
  let document := query_opportunity_data float_of_str query response now
                    opportunity_id target_currency in
  (is_error_document document = true
   ∧ ∃ message, document !! "error_message" = Some (PStr message))
  ∨ (is_error_document document = false
     ∧ ∃ result, found_data float_of_str result response target_currency now
                 = Return document).
Proof.
  simpl.
  destruct (query_opportunity_data_cases float_of_str query response now
              opportunity_id target_currency)
    as [(e & _ & ->)|[->|[result Hdoc]]].
  - left. unfold is_error_document.
    rewrite error_data_status, error_data_message. eauto.
  - left. unfold is_error_document.
    destruct (not_found_data_status opportunity_id target_currency now)
      as [-> ->]. eauto.
  - right. split; [|by exists result].
    unfold is_error_document.
    assert ("error_status" ∉ dom (query_opportunity_data float_of_str query
              response now opportunity_id target_currency)) as Hkey.
    { rewrite (found_data_keys _ _ _ _ _ _ Hdoc), elem_of_list_to_set.
      apply error_fields_not_core. apply list_elem_of_here. }
    apply not_elem_of_dom in Hkey. by rewrite Hkey.
Qed.

(** The result while the document is being indexed. *)
Lemma process_extracted (url opportunity_id : string) (es : option es_client)
    (es_config : option (gmap string pyval)) (args : arguments) :
  extract_opportunity_id url = Some opportunity_id →
  let target_currency := get_target_currency_from_config (Some args) env in
  let document :=
    query_opportunity_data float_of_str (sf opportunity_id)
      (rate_source target_currency) now opportunity_id target_currency in
  let result :=
    Processing url false (Some opportunity_id)
      (default (PStr "Unknown") (document !! "opportunity_name"))
      PNone (Some document) in
  process_single_opportunity float_of_str str_other sf rate_source now env
    url es es_config args
  = match index_step str_other es es_config args document result with
    | Return result => set_success true result
    | Raise e =>
        set_error (PStr (exn_str e))
          (if is_error_document document
           then set_error
                  (default (PStr "Unknown error") (document !! "error_message"))
                  result
           else result)
    end.
Proof.
  intros Hid. simpl. unfold process_single_opportunity.
  rewrite Hid.
  pose proof (extracted_shape_nonempty url opportunity_id Hid) as Hne.
  rewrite (missing_Some _ Hne). cbn [default].
  by rewrite document_non_empty.
Qed.

Lemma url_without_id_message (url : string) (es : option es_client)
    (es_config : option (gmap string pyval)) (args : arguments) :
  extract_opportunity_id url = None →
  process_single_opportunity float_of_str str_other sf rate_source now env
    url es es_config args
  = Processing url false None PNone
      (PStr "Could not extract opportunity ID from URL") None.
Proof.
  intros Hid. unfold process_single_opportunity. by rewrite Hid.
Qed.

(** X8. A URL with an opportunity id is always processed with success,
    whatever the query and the indexing do (not found, a query that raises,
    an indexing that fails), as long as an Elasticsearch configuration that
    is used has an index name: the result carries the id and the document
    the mapper built for it. *)
Theorem url_with_id_succeeds (url opportunity_id : string)
    (es : option es_client) (es_config : option (gmap string pyval))
    (args : arguments) :
  extract_opportunity_id url = Some opportunity_id →
  (args.(args_json_only) = true ∨ es = None
   ∨ ∀ config, es_config = Some config →
               config = ∅ ∨ is_Some (config !! "index")) →
  let target_currency := get_target_currency_from_config (Some args) env in
  let r := process_single_opportunity float_of_str str_other sf rate_source now env
             url es es_config args in
  r.(success) = true
  ∧ r.(processed_id) = Some opportunity_id
  ∧ r.(data)
    = Some (query_opportunity_data float_of_str (sf opportunity_id)
              (rate_source target_currency) now opportunity_id target_currency).
Proof.
  intros Hid Hconfig. simpl. rewrite (process_extracted _ _ _ _ _ Hid).
  set (document := query_opportunity_data _ _ _ _ _ _).
  set (result := Processing _ _ _ _ _ _).
  assert (∀ r : processing,
            processed_id r = Some opportunity_id → data r = Some document →
            ∃ r', index_step str_other es es_config args document r = Return r'
                  ∧ processed_id r' = Some opportunity_id
                  ∧ data r' = Some document) as Hstep.
  { intros r Hr1 Hr2. unfold index_step.
    set (r0 := if is_error_document document then _ else r).
    assert (processed_id r0 = Some opportunity_id ∧ data r0 = Some document)
      as [Hr01 Hr02] by (unfold r0; by destruct (is_error_document document)).
    destruct es as [client|]; [|by exists r0].
    destruct es_config as [config|]; [|by exists r0].
    destruct (negb (args_json_only args) && Py.truthy (PDict config)) eqn:Huse;
      [|by exists r0].
    apply andb_true_iff in Huse as [Hjson Htruthy].
    destruct Hconfig as [Hjson'|[?|Hconfig]]; [by rewrite Hjson' in Hjson|done|].
    destruct (Hconfig config eq_refl) as [->|[index_name Hindex]]; [done|].
    unfold Py.getitem. rewrite Hindex. simpl.
    destruct (index_opportunity_data _ _ _); simpl; [by exists r0|].
    destruct (is_error_document document); eexists; by split. }
  destruct (Hstep result eq_refl eq_refl) as (r' & -> & ? & ?). done.
Qed.

(** X9. A result that is not a success always has an error message, and it
    is a string. *)
Theorem failure_has_message (url : string) (es : option es_client)
    (es_config : option (gmap string pyval)) (args : arguments) :
  (process_single_opportunity float_of_str str_other sf rate_source now env
     url es es_config args).(success) = false →
  ∃ message,
    (process_single_opportunity float_of_str str_other sf rate_source now env
       url es es_config args).(error) = PStr message.
Proof.
  destruct (extract_opportunity_id url) as [opportunity_id|] eqn:Hid.
  - rewrite (process_extracted _ _ _ _ _ Hid).
    destruct (index_step _ _ _ _ _ _); [done|]. intros _. simpl. eauto.
  - rewrite url_without_id_message by done. simpl. eauto.
Qed.

(** X10. An indexing that fails does not undo the success: the failure is
    put in the error of the result, after the error message of the document
    when the document is itself an error document. *)
Theorem failed_indexing_is_recorded (url opportunity_id : string)
    (client : es_client) (config : gmap string pyval) (index_name : pyval)
    (args : arguments) :
  extract_opportunity_id url = Some opportunity_id →
  args.(args_json_only) = false →
  config !! "index" = Some index_name →
  let target_currency := get_target_currency_from_config (Some args) env in
  let document :=
    query_opportunity_data float_of_str (sf opportunity_id)
      (rate_source target_currency) now opportunity_id target_currency in
  index_opportunity_data client document index_name = false →
  let r := process_single_opportunity float_of_str str_other sf rate_source now env
             url (Some client) (Some config) args in
  r.(success) = true
  ∧ r.(data) = Some document
  ∧ (is_error_document document = false →
     r.(error) = PStr "Failed to index to Elasticsearch")
  ∧ (is_error_document document = true →
     ∃ message,
       document !! "error_message" = Some (PStr message)
       ∧ r.(error)
         = PStr (message +:+ " + " +:+ "Failed to index to Elasticsearch")).
Proof.
  intros Hid Hjson Hindex. simpl. intros Hfailed.
  rewrite (process_extracted _ _ _ _ _ Hid).
  set (document := query_opportunity_data _ _ _ _ _ _) in *.
  unfold index_step. rewrite Hjson. cbn [negb andb].
  assert (Py.truthy (PDict config) = true) as ->.
  { simpl. apply negb_true_iff, bool_decide_eq_false. intros ->.
    by rewrite lookup_empty in Hindex. }
  unfold Py.getitem. rewrite Hindex. cbn [mbind outcome_bind].
  rewrite Hfailed. cbn [negb].
  destruct (document_error_status (sf opportunity_id)
              (rate_source (get_target_currency_from_config (Some args) env))
              opportunity_id (get_target_currency_from_config (Some args) env))
    as [[Herr [message Hmessage]]|[Herr _]]; fold document in Herr.
  - fold document in Hmessage. rewrite Herr, Hmessage. simpl.
    repeat split; [done|]. intros _. by exists message.
  - rewrite Herr. simpl. repeat split; done.
Qed.

End ProcessingFacts.

Lemma url_with_id_succeeds_witness :
  let url :=
    "https://elastic.lightning.force.com/lightning/r/Opportunity/006Vv00000ABC123/view" in
  let sf := λ _ : string, Raise (Exn OtherException "INSUFFICIENT_ACCESS: denied") in
  let rate_source := λ _ : string, Raise (Exn URLError "timed out") in
  let r :=
    process_single_opportunity not_a_number (λ _, "") sf rate_source
      "2024-01-01T00:00:00" ∅ url None None (Arguments true (Some "eur")) in
  r.(success) = true
  ∧ r.(processed_id) = Some "006Vv00000ABC123"
  ∧ r.(data)
    = Some (query_opportunity_data not_a_number (sf "006Vv00000ABC123")
              (rate_source "EUR") "2024-01-01T00:00:00" "006Vv00000ABC123" "EUR").
Proof.
  intros url sf rate_source.
  apply (url_with_id_succeeds not_a_number (λ _, "") sf rate_source
           "2024-01-01T00:00:00" ∅ url "006Vv00000ABC123" None None
           (Arguments true (Some "eur"))).
  - vm_compute. reflexivity.
  - left. reflexivity.
Defined.

Lemma failure_has_message_witness :
  ∃ message,
    (process_single_opportunity not_a_number (λ _, "")
       (λ _, Raise (Exn OtherException "unreachable"))
       (λ _, Raise (Exn URLError "timed out"))
       "2024-01-01T00:00:00" ∅
       "https://elastic.lightning.force.com/lightning/r/Account/001Vv00000ABC123/view"
       None None (Arguments true None)).(error)
    = PStr message.
Proof.
  apply failure_has_message. vm_compute. reflexivity.
Defined.

Lemma failed_indexing_is_recorded_witness :
  let url :=
    "https://elastic.lightning.force.com/lightning/r/Opportunity/006Vv00000ABC123/view" in
  let sf := λ _ : string, Return (PDict {[ "totalSize" := PInt 0 ]}) in
  let rate_source := λ _ : string, Raise (Exn URLError "timed out") in
  let client : es_client := λ _ _ _, Raise (Exn OtherException "connection refused") in
  let config : gmap string pyval := {[ "index" := PStr "salesforce-opportunities" ]} in
  let r :=
    process_single_opportunity not_a_number (λ _, "") sf rate_source
      "2024-01-01T00:00:00" ∅ url (Some client) (Some config)
      (Arguments false (Some "USD")) in
  r.(success) = true
  ∧ r.(error)
    = PStr "opportunity deleted or not found + Failed to index to Elasticsearch".
Proof.
  intros url sf rate_source client config.
  destruct (failed_indexing_is_recorded not_a_number (λ _, "") sf rate_source
              "2024-01-01T00:00:00" ∅ url "006Vv00000ABC123" client config
              (PStr "salesforce-opportunities") (Arguments false (Some "USD")))
    as (Hsuccess & _ & _ & Herror);
    [vm_compute; reflexivity | reflexivity | vm_compute; reflexivity
    | vm_compute; reflexivity |].
  split; [exact Hsuccess|].
  destruct Herror as (message & Hmessage & ->); [vm_compute; reflexivity|].
  vm_compute in Hmessage. by injection Hmessage as <-.
Defined.

(** ** Conversion: what failure leaves behind *)

(** X11. Whenever a conversion does not succeed, for whatever reason (a
    missing code, a source without rate, a division by a zero rate), the
    converted amount is the original amount, the rate is 1.0 and the note
    says why. *)
Theorem failed_conversion_keeps_amount (amount : option float)
    (from to : option string) (conversion_rates : gmap string float) :
  let r := convert_currency_amount amount from to conversion_rates in
  r.(conversion_successful) = false →
  r.(converted_amount) = Py.of_float amount
  ∧ r.(conversion_rate) = 1%float
  ∧ is_Some r.(conversion_note).
Proof.
  simpl.
  destruct (zero_or_absent amount) eqn:Hz.
  { by rewrite convert_zero. }
  destruct (missing from || missing to) eqn:Hm.
  { rewrite convert_missing by done. by eauto. }
  apply orb_false_elim in Hm as [Hf Ht].
  destruct from as [from|]; [|done]. destruct to as [to|]; [|done].
  assert (from ≠ "") as Hf' by (by intros ->).
  assert (to ≠ "") as Ht' by (by intros ->).
  destruct (decide (normalized from = normalized to)) as [Heq|Hne].
  { by rewrite convert_same. }
  destruct (conversion_rates !! normalized from) as [from_rate|] eqn:Hfrom.
  2: { rewrite convert_no_rate by done. by eauto. }
  rewrite (convert_rate _ _ _ _ Hz Hf' Ht' from_rate Hne Hfrom).
  destruct (apply_rate _ _ _ _) as [[rate converted]|e]; [done|].
  by eauto.
Qed.

Lemma failed_conversion_keeps_amount_witness :
  let r := convert_currency_amount (Some 250%float) (Some "JPY") (Some "EUR")
             {[ "JPY" := 0.0067%float; "EUR" := 0%float ]} in
  r.(converted_amount) = Py.of_float (Some 250%float)
  ∧ r.(conversion_rate) = 1%float
  ∧ is_Some r.(conversion_note).
Proof.
  apply (failed_conversion_keeps_amount (Some 250%float) (Some "JPY") (Some "EUR")
           {[ "JPY" := 0.0067%float; "EUR" := 0%float ]}).
  vm_compute. reflexivity.
Defined.

(** X12. A target currency whose rate in the table is zero makes the
    division raise; the exception is caught and reported as a failure whose
    note carries its text. *)
Theorem zero_target_rate_is_caught (a : float) (from to : string)
    (conversion_rates : gmap string float) (from_rate to_rate : float) :
  PyFloat.is_zero a = false →
  from ≠ "" → to ≠ "" →
  normalized from ≠ normalized to →
  normalized to ≠ "USD" →
  conversion_rates !! normalized from = Some from_rate →
  conversion_rates !! normalized to = Some to_rate →
  PyFloat.is_zero to_rate = true →
  let r := convert_currency_amount (Some a) (Some from) (Some to)
             conversion_rates in
  r.(conversion_successful) = false
  ∧ r.(conversion_note)
    = Some "Conversion calculation error: float division by zero"
  ∧ r.(converted_amount) = PFloat a.
Proof.
  intros Hnz Hf Ht Hne Husd Hfrom Hto Hzero. simpl.
  rewrite (convert_rate _ _ _ _ (eq_trans (zero_or_absent_Some a) Hnz) Hf Ht
             from_rate Hne Hfrom).
  by rewrite apply_rate_zero_division by (by rewrite ?Hto).
Qed.

Lemma zero_target_rate_is_caught_witness :
  let r := convert_currency_amount (Some 250%float) (Some "JPY") (Some "EUR")
             {[ "JPY" := 0.0067%float; "EUR" := (-0)%float ]} in
  r.(conversion_successful) = false
  ∧ r.(conversion_note)
    = Some "Conversion calculation error: float division by zero"
  ∧ r.(converted_amount) = PFloat 250.
Proof.
  apply (zero_target_rate_is_caught 250 "JPY" "EUR"
           {[ "JPY" := 0.0067%float; "EUR" := (-0)%float ]} 0.0067 (-0));
    vm_compute; done.
Defined.

(** ** Rate tables: what the entries are *)

(** A loop that returns has run its body on every item without an
    exception, and the table holds the results under the same keys. *)
Lemma for_items_Return {A} (body : string → A → outcome float)
    (d : gmap string A) (table : gmap string float) :
  for_items body d = Return table →
  ∀ key,
    table !! key
    = d !! key ≫= λ value,
        match body key value with Return r => Some r | Raise _ => None end.
Proof.
  revert table. unfold for_items.
  apply (map_fold_weak_ind
           (λ acc m, ∀ table, acc = Return table →
              ∀ key, table !! key
                     = m !! key ≫= λ value,
                         match body key value with
                         | Return r => Some r
                         | Raise _ => None
                         end)).
  - intros table [= <-] key. by rewrite !lookup_empty.
  - intros i x m acc Hi IH table Hstep key.
    destruct acc as [table0|]; [|done]. simpl in Hstep.
    destruct (body i x) as [r|] eqn:Hbody; [|done]. simpl in Hstep.
    injection Hstep as <-.
    destruct (decide (i = key)) as [->|Hne].
    + rewrite !lookup_insert_eq. simpl. by rewrite Hbody.
    + rewrite !lookup_insert_ne by done. by apply IH.
Qed.

Lemma for_items_Return_Some {A} (body : string → A → outcome float)
    (d : gmap string A) (table : gmap string float) (key : string) (value : A) :
  for_items body d = Return table →
  d !! key = Some value →
  ∃ r, body key value = Return r ∧ table !! key = Some r.
Proof.
  revert table. unfold for_items.
  apply (map_fold_weak_ind
           (λ acc m, ∀ table, acc = Return table → m !! key = Some value →
              ∃ r, body key value = Return r ∧ table !! key = Some r)).
  - intros table _. by rewrite lookup_empty.
  - intros i x m acc Hi IH table Hstep.
    destruct acc as [table0|]; [|done]. simpl in Hstep.
    destruct (body i x) as [r|] eqn:Hbody; [|done]. simpl in Hstep.
    injection Hstep as <-.
    destruct (decide (i = key)) as [->|Hne].
    + rewrite !lookup_insert_eq. intros [= ->]. by exists r.
    + rewrite !lookup_insert_ne by done. by apply IH.
Qed.

Lemma for_items_Return_None {A} (body : string → A → outcome float)
    (d : gmap string A) (table : gmap string float) (key : string) :
  for_items body d = Return table → d !! key = None → table !! key = None.
Proof. intros H Hkey. by rewrite (for_items_Return _ _ _ H), Hkey. Qed.

(** X13. A table that comes from the live response has the currencies of
    the response and the base, and nothing else. The base is 1.0; any other
    currency whose rate in the response is a positive number holds the
    inverse of that rate, and one whose rate is not positive falls back to
    its static rate, or to 1.0 when the static table lacks it. *)
Theorem live_rates_are_inverted (base_currency : string)
    (data rates : gmap string pyval) (table : gmap string float) :
  live_table base_currency (Return (PDict data)) = Some table →
  data !! "rates" = Some (PDict rates) →
  dom table = {[base_currency]} ∪ dom rates
  ∧ table !! base_currency = Some 1%float
  ∧ ∀ currency rate,
      currency ≠ base_currency →
      rates !! currency = Some (PFloat rate) →
      table !! currency
      = Some (if PyFloat.is_pos rate then (1 / rate)%float
              else default 1%float (fallback_rates !! currency)).
Proof.
  unfold live_table. intros Hlive Hrates.
  destruct (live_rates base_currency (PDict data)) as [[table'|]|] eqn:Hdata;
    [|done..].
  injection Hlive as ->. unfold live_rates in Hdata. simpl in Hdata.
  destruct (_ && _); [|done]. rewrite Hrates in Hdata. simpl in Hdata.
  destruct (for_items _ rates) as [conversion_rates|] eqn:Hloop; [|done].
  simpl in Hdata. injection Hdata as <-.
  split; [|split].
  - rewrite dom_insert_L. f_equal. apply set_eq. intros key.
    rewrite !elem_of_dom.
    destruct (rates !! key) as [value|] eqn:Hkey.
    + destruct (for_items_Return_Some _ _ _ _ _ Hloop Hkey) as (r & _ & ->).
      split; eauto.
    + rewrite (for_items_Return_None _ _ _ _ Hloop Hkey). done.
  - apply lookup_insert_eq.
  - intros currency rate Hne Hrate. rewrite lookup_insert_ne by done.
    destruct (for_items_Return_Some _ _ _ _ _ Hloop Hrate) as (r & Hr & ->).
    f_equal. unfold live_entry in Hr. simpl in Hr.
    destruct (PyFloat.is_pos rate) eqn:Hpos; simpl in Hr.
    + apply String.eqb_neq in Hne. rewrite Hne in Hr. simpl in Hr.
      unfold PyFloat.div in Hr. rewrite (pos_not_zero _ Hpos) in Hr.
      by injection Hr.
    + by injection Hr.
Qed.

Lemma live_rates_are_inverted_witness :
  let rates : gmap string pyval :=
    {[ "EUR" := PInt 1; "USD" := PFloat 1.25; "XAU" := PFloat 0 ]} in
  let data : gmap string pyval :=
    {[ "success" := PBool true; "rates" := PDict rates ]} in
  ∃ table,
    get_currency_conversion_rates "EUR" (Return (PDict data)) = Return table
    ∧ dom table = {[ "EUR" ]} ∪ dom rates
    ∧ table !! "EUR" = Some 1%float
    ∧ ∀ currency rate,
        currency ≠ "EUR" →
        rates !! currency = Some (PFloat rate) →
        table !! currency
        = Some (if PyFloat.is_pos rate then (1 / rate)%float
                else default 1%float (fallback_rates !! currency)).
Proof.
  intros rates data.
  destruct (live_table "EUR" (Return (PDict data))) as [table|] eqn:Hlive;
    [|by vm_compute in Hlive].
  exists table. split.
  - by rewrite get_currency_conversion_rates_returns, Hlive.
  - apply (live_rates_are_inverted "EUR" data rates table Hlive).
    vm_compute. reflexivity.
Defined.

(** ** The fallback table in the converter *)

Lemma fallback_key_normalized (currency : string) (rate : float) :
  fallback_rates !! currency = Some rate → normalized currency = currency.
Proof.
  intros H. unfold fallback_rates in H.
  apply elem_of_list_to_map_2 in H.
  repeat (apply elem_of_cons in H as [[= -> ->]|H]; [vm_compute; done|]).
  by apply elem_of_nil in H.
Qed.

(** On the static rates a division by 1.0 changes nothing. *)
Lemma fallback_quotient_exact (from to : string) (from_usd to_usd : float) :
  fallback_rates !! from = Some from_usd →
  fallback_rates !! to = Some to_usd →
  (from_usd / to_usd / 1 = from_usd / to_usd)%float
  ∧ (from_usd / 1 = from_usd)%float.
Proof.
  intros Hfrom Hto. unfold fallback_rates in Hfrom, Hto.
  apply elem_of_list_to_map_2 in Hfrom, Hto.
  repeat (apply elem_of_cons in Hfrom as [[= -> ->]|Hfrom];
          [repeat (apply elem_of_cons in Hto as [[= -> ->]|Hto];
                   [vm_compute; done|]);
           by apply elem_of_nil in Hto|]).
  by apply elem_of_nil in Hfrom.
Qed.

(** X14. When the rate source cannot be reached, an amount in one currency
    of the static table is converted to another currency of that table
    with the quotient of their two USD rates: the amount is the product with
    it rounded to 2 decimals, the stored rate is it rounded to 6. *)
Theorem fallback_conversion_uses_usd_quotient (a : float) (from to : string)
    (from_usd to_usd : float) (e : exn) (table : gmap string float) :
  PyFloat.is_zero a = false →
  from ≠ to →
  fallback_rates !! from = Some from_usd →
  fallback_rates !! to = Some to_usd →
  get_currency_conversion_rates to (Raise e) = Return table →
  let r := convert_currency_amount (Some a) (Some from) (Some to) table in
  r.(conversion_successful) = true
  ∧ r.(conversion_rate) = PyFloat.round (from_usd / to_usd) 6
  ∧ r.(converted_amount) = PFloat (PyFloat.round (a * (from_usd / to_usd)) 2).
Proof.
  intros Hnz Hne Hfrom Hto Htable.
  rewrite get_currency_conversion_rates_returns in Htable.
  simpl in Htable. injection Htable as <-.
  pose proof (fallback_key_normalized _ _ Hfrom) as Hnf.
  pose proof (fallback_key_normalized _ _ Hto) as Hnt.
  destruct (fallback_quotient_exact _ _ _ _ Hfrom Hto) as [Hcross Husd].
  assert (from ≠ "") as Hf by (intros ->; by vm_compute in Hfrom).
  assert (to ≠ "") as Ht by (intros ->; by vm_compute in Hto).
  simpl. unfold fallback_table. case_decide as Hbase.
  - subst to. assert (to_usd = 1%float) as -> by (vm_compute in Hto; congruence).
    rewrite (convert_rate _ _ _ _ (eq_trans (zero_or_absent_Some a) Hnz) Hf Ht
               from_usd); [|by rewrite Hnf, Hnt | by rewrite Hnf].
    rewrite Hnt, apply_rate_usd. simpl. by rewrite Husd.
  - destruct (fallback_rate_known _ _ Hto) as [Hz Hone].
    rewrite (convert_rate _ _ _ _ (eq_trans (zero_or_absent_Some a) Hnz) Hf Ht
               (from_usd / to_usd)%float);
      [|by rewrite Hnf, Hnt | by rewrite Hnf, lookup_fmap, Hfrom, Hto].
    rewrite Hnt, apply_rate_cross; rewrite ?lookup_fmap, ?Hto; simpl;
      rewrite ?Hone; [|done..].
    by rewrite Hcross.
Qed.

Lemma fallback_conversion_uses_usd_quotient_witness :
  ∃ table,
    get_currency_conversion_rates "EUR" (Raise (Exn URLError "timed out"))
    = Return table
    ∧ let r := convert_currency_amount (Some 1000000%float) (Some "JPY")
                 (Some "EUR") table in
      r.(conversion_successful) = true
      ∧ r.(conversion_rate) = PyFloat.round (0.0067 / 1.18) 6
      ∧ r.(converted_amount)
        = PFloat (PyFloat.round (1000000 * (0.0067 / 1.18)) 2).
Proof.
  eexists. split; [apply get_currency_conversion_rates_returns|].
  apply (fallback_conversion_uses_usd_quotient 1000000 "JPY" "EUR" 0.0067 1.18
           (Exn URLError "timed out"));
    [reflexivity | done | reflexivity | reflexivity
    | apply get_currency_conversion_rates_returns].
Defined.

(** ** Documents: fields that are not there *)

Lemma related_field_absent (record : gmap string pyval) (relation key : string) :
  Py.truthy (default PNone (record !! relation)) = false →
  related_field (PDict record) relation key = Return PNone.
Proof. intros H. unfold related_field. simpl. by rewrite H. Qed.

Lemma convert_zero_record (original_currency : pyval) (target_currency : string)
    (conversion_rates : gmap string float) (conversion : conversion) :
  convert_record_amount 0 original_currency target_currency conversion_rates
  = Return conversion →
  conversion.(converted_amount) = PInt 0
  ∧ conversion.(conversion_rate) = 1%float
  ∧ conversion.(conversion_successful) = true
  ∧ conversion.(conversion_note) = Some "Zero amount".
Proof.
  unfold convert_record_amount.
  destruct original_currency; simpl; intros [= <-]; by rewrite convert_zero.
Qed.

Section DocumentFields.

Variable float_of_str : string → outcome float.
Variables (result record : gmap string pyval) (others : list pyval).
Variable response : outcome pyval.
Variables (target_currency now : string) (document : gmap string pyval).

Hypothesis first_record :
  result !! "records" = Some (PList (PDict record :: others)).
Hypothesis found :
  found_data float_of_str (PDict result) response target_currency now
  = Return document.

Lemma float_field_absent (key : string) :
  Py.truthy (default PNone (record !! key)) = false →
  float_field float_of_str (PDict record) key = Return 0%float.
Proof. intros H. unfold float_field. simpl. by rewrite H. Qed.

(** The fields of the document, each with the statement that gave it. *)
Lemma found_data_fields :
  ∃ original_amount conversion account_id account_name owner_id owner_name
    original_currency conversion_rates,
    float_field float_of_str (PDict record) "Amount" = Return original_amount
    ∧ convert_record_amount original_amount original_currency target_currency
        conversion_rates = Return conversion
    ∧ related_field (PDict record) "Account" "Id" = Return account_id
    ∧ related_field (PDict record) "Account" "Name" = Return account_name
    ∧ related_field (PDict record) "Owner" "Id" = Return owner_id
    ∧ related_field (PDict record) "Owner" "Name" = Return owner_name
    ∧ document !! "amount" = Some (PFloat original_amount)
    ∧ document !! "amount_converted" = Some conversion.(converted_amount)
    ∧ document !! "conversion_rate" = Some (PFloat conversion.(conversion_rate))
    ∧ document !! "conversion_successful"
      = Some (PBool conversion.(conversion_successful))
    ∧ document !! "conversion_note" = Some (Py.of_str conversion.(conversion_note))
    ∧ document !! "account_id" = Some account_id
    ∧ document !! "account_name" = Some account_name
    ∧ document !! "owner_id" = Some owner_id
    ∧ document !! "owner_name" = Some owner_name.
Proof.
  pose proof found as H. unfold found_data in H.
  apply bind_Return in H as (records & Hrecords & H).
  simpl in Hrecords. rewrite first_record in Hrecords. injection Hrecords as <-.
  apply bind_Return in H as (opportunity & Hopportunity & H).
  injection Hopportunity as <-.
  apply bind_Return in H as (conversion_rates & _ & H).
  apply bind_Return in H as (original_currency & _ & H).
  apply bind_Return in H as (original_amount & Hamount & H).
  apply bind_Return in H as (conversion & Hconversion & H).
  do 9 (apply bind_Return in H as (? & _ & H)).
  apply bind_Return in H as (account_id & Haccount_id & H).
  apply bind_Return in H as (account_name & Haccount_name & H).
  apply bind_Return in H as (owner_id & Howner_id & H).
  apply bind_Return in H as (owner_name & Howner_name & H).
  do 2 (apply bind_Return in H as (? & _ & H)).
  apply Return_inj in H as <-.
  exists original_amount, conversion, account_id, account_name, owner_id,
    owner_name, original_currency, conversion_rates.
  repeat split; try done; vm_compute; reflexivity.
Qed.

(** X15. A record without an account (the relation missing or null) maps
    to a null account id and a null account name, and the same holds of the
    owner: a missing relation is never an exception. *)
Theorem absent_relation_maps_to_null :
  (Py.truthy (default PNone (record !! "Account")) = false →
   document !! "account_id" = Some PNone
   ∧ document !! "account_name" = Some PNone)
  ∧ (Py.truthy (default PNone (record !! "Owner")) = false →
     document !! "owner_id" = Some PNone
     ∧ document !! "owner_name" = Some PNone).
Proof.
  destruct found_data_fields
    as (? & ? & ? & ? & ? & ? & ? & ? & _ & _ & Ha1 & Ha2 & Ho1 & Ho2
        & _ & _ & _ & _ & _ & -> & -> & -> & ->).
  split; intros Habsent.
  - rewrite related_field_absent in Ha1, Ha2 by done.
    by injection Ha1 as <-; injection Ha2 as <-.
  - rewrite related_field_absent in Ho1, Ho2 by done.
    by injection Ho1 as <-; injection Ho2 as <-.
Qed.

(** X16. A record without an amount (the field missing, null or zero) maps
    to the amount 0.0, converted to 0 with success at the rate 1.0 and the
    note "Zero amount", whatever the record's currency field holds and
    whatever the rate table is. *)
Theorem absent_amount_maps_to_zero :
  Py.truthy (default PNone (record !! "Amount")) = false →
  document !! "amount" = Some (PFloat 0)
  ∧ document !! "amount_converted" = Some (PInt 0)
  ∧ document !! "conversion_rate" = Some (PFloat 1)
  ∧ document !! "conversion_successful" = Some (PBool true)
  ∧ document !! "conversion_note" = Some (PStr "Zero amount").
Proof.
  intros Habsent.
  destruct found_data_fields
    as (original_amount & conversion & ? & ? & ? & ? & ? & ? & Hamount
        & Hconversion & _ & _ & _ & _ & -> & -> & -> & -> & -> & _).
  rewrite float_field_absent in Hamount by done. injection Hamount as <-.
  destruct (convert_zero_record _ _ _ _ Hconversion) as (-> & -> & -> & ->).
  done.
Qed.

End DocumentFields.


Lemma absent_relation_maps_to_null_witness :
  let record : gmap string pyval :=
    {[ "Id" := PStr "006Vv00000ABC123"; "Name" := PStr "Renewal";
       "Owner" := PNone; "Amount" := PFloat 100 ]} in
  let result : gmap string pyval :=
    {[ "totalSize" := PInt 1; "records" := PList [PDict record] ]} in
  ∃ document,
    found_data not_a_number (PDict result) (Raise (Exn URLError "timed out"))
      "USD" "2024-01-01T00:00:00" = Return document
    ∧ document !! "account_id" = Some PNone
    ∧ document !! "account_name" = Some PNone
    ∧ document !! "owner_id" = Some PNone
    ∧ document !! "owner_name" = Some PNone.
Proof.
  intros record result.
  assert (returned (found_data not_a_number (PDict result)
            (Raise (Exn URLError "timed out")) "USD" "2024-01-01T00:00:00")
          = true) as Hreturned by (vm_compute; reflexivity).
  destruct (found_data not_a_number (PDict result)
              (Raise (Exn URLError "timed out")) "USD" "2024-01-01T00:00:00")
    as [document|] eqn:Hfound; [clear Hreturned|discriminate Hreturned].
  exists document. split; [reflexivity|].
  assert (result !! "records" = Some (PList [PDict record])) as Hfirst
    by (vm_compute; reflexivity).
  destruct (absent_relation_maps_to_null not_a_number result record []
              (Raise (Exn URLError "timed out")) "USD" "2024-01-01T00:00:00"
              document Hfirst Hfound) as [Haccount Howner].
  destruct Haccount as [Ha1 Ha2]; [vm_compute; reflexivity|].
  destruct Howner as [Ho1 Ho2]; [vm_compute; reflexivity|].
  exact (conj Ha1 (conj Ha2 (conj Ho1 Ho2))).
Defined.

Lemma absent_amount_maps_to_zero_witness :
  let record : gmap string pyval :=
    {[ "Id" := PStr "006Vv00000ABC123"; "Name" := PStr "Renewal";
       "Amount" := PNone; "CurrencyIsoCode" := PStr "JPY" ]} in
  let result : gmap string pyval :=
    {[ "totalSize" := PInt 1; "records" := PList [PDict record] ]} in
  ∃ document,
    found_data not_a_number (PDict result) (Raise (Exn URLError "timed out"))
      "EUR" "2024-01-01T00:00:00" = Return document
    ∧ document !! "amount" = Some (PFloat 0)
    ∧ document !! "amount_converted" = Some (PInt 0)
    ∧ document !! "conversion_rate" = Some (PFloat 1)
    ∧ document !! "conversion_successful" = Some (PBool true)
    ∧ document !! "conversion_note" = Some (PStr "Zero amount").
Proof.
  intros record result.
  assert (returned (found_data not_a_number (PDict result)
            (Raise (Exn URLError "timed out")) "EUR" "2024-01-01T00:00:00")
          = true) as Hreturned by (vm_compute; reflexivity).
  destruct (found_data not_a_number (PDict result)
              (Raise (Exn URLError "timed out")) "EUR" "2024-01-01T00:00:00")
    as [document|] eqn:Hfound; [clear Hreturned|discriminate Hreturned].
  exists document. split; [reflexivity|].
  assert (result !! "records" = Some (PList [PDict record])) as Hfirst
    by (vm_compute; reflexivity).
  apply (absent_amount_maps_to_zero not_a_number result record []
           (Raise (Exn URLError "timed out")) "EUR" "2024-01-01T00:00:00"
           document Hfirst Hfound).
  vm_compute; reflexivity.
Defined.

(** ** The Elasticsearch configuration *)

Lemma lacks_false (config : gmap string pyval) (field : string) :
  lacks config field = false →
  ∃ v, config !! field = Some v ∧ Py.truthy v = true.
Proof.
  unfold lacks. destruct (config !! field) as [v|]; simpl; [|done].
  intros H%negb_false_iff. by exists v.
Qed.

(** X17. A configuration that passes the validation has a cluster URL that
    is a string starting with http:// or https://, an index name, and the
    credentials of its kind of authentication: a user name and a password
    for "basic", a key for "api_key". *)
Theorem valid_config_is_complete (config : gmap string pyval) :
  validate_elasticsearch_config config = Return true →
  (∃ url, config !! "cluster_url" = Some (PStr url)
          ∧ (PyStr.startswith url "http://" || PyStr.startswith url "https://")
            = true)
  ∧ lacks config "index" = false
  ∧ (config !! "auth_type" = Some (PStr "basic") →
     lacks config "username" = false ∧ lacks config "password" = false)
  ∧ (config !! "auth_type" = Some (PStr "api_key") →
     lacks config "api_key" = false).
Proof.
  unfold validate_elasticsearch_config. cbn [existsb].
  destruct (lacks config "cluster_url") eqn:Hurl; [done|].
  destruct (lacks config "index") eqn:Hindex; [done|].
  destruct (lacks config "auth_type") eqn:Hauth; [done|]. cbn [orb].
  destruct (lacks_false _ _ Hurl) as (cluster_url & Hcluster & _).
  destruct (lacks_false _ _ Hauth) as (auth_type & Htype & _).
  unfold Py.getitem. rewrite Htype, Hcluster. cbn [mbind outcome_bind].
  assert (match startswith_http cluster_url with
          | Return ok => if negb ok then Return false else Return true
          | Raise e => Raise e
          end = Return true →
          ∃ url, Some cluster_url = Some (PStr url)
                 ∧ (PyStr.startswith url "http://"
                    || PyStr.startswith url "https://") = true) as Hformat.
  { destruct cluster_url as [| | | |url| |]; cbn [startswith_http]; try done.
    destruct (PyStr.startswith url "http://" || PyStr.startswith url "https://")
      eqn:Hscheme; [|done].
    intros _. by exists url. }
  destruct (eq_str auth_type "basic") eqn:Hbasic.
  - destruct (lacks config "username") eqn:Hu; [done|].
    destruct (lacks config "password") eqn:Hp; [done|]. cbn [orb].
    intros Hok%Hformat. split; [done|]. split; [done|]. split; [done|].
    intros [= ->]. done.
  - destruct (eq_str auth_type "api_key") eqn:Hkey.
    + destruct (lacks config "api_key") eqn:Hk; [done|].
      intros Hok%Hformat. split; [done|]. split; [done|]. split; [|done].
      intros [= ->]. done.
    + intros Hok%Hformat. split; [done|]. split; [done|].
      split; intros [= ->]; done.
Qed.

Lemma valid_config_is_complete_witness :
  let config : gmap string pyval :=
    {[ "cluster_url" := PStr "https://es.example.com:9243";
       "index" := PStr "salesforce-opportunities";
       "auth_type" := PStr "basic";
       "username" := PStr "elastic";
       "password" := PStr "changeme" ]} in
  lacks config "index" = false
  ∧ (config !! "auth_type" = Some (PStr "basic") →
     lacks config "username" = false ∧ lacks config "password" = false).
Proof.
  intros config.
  destruct (valid_config_is_complete config) as (_ & Hindex & Hbasic & _);
    [vm_compute; reflexivity|].
  by split.
Defined.

(** X18. With a cluster URL and credentials in the environment (a key, or a
    user name and a password) the configuration is taken from there without
    a prompt, and it passes the validation exactly when the URL starts with
    http:// or https:// and the index name is not empty. *)
Theorem environment_config (env : gmap string string) (stdin : list string)
    (url : string) :
  env !! "ES_CLUSTER_URL" = Some url → url ≠ "" →
  Py.truthy (getenv env "ES_API_KEY")
  || (Py.truthy (getenv env "ES_USERNAME") && Py.truthy (getenv env "ES_PASSWORD"))
  = true →
  ∃ config,
    get_elasticsearch_config env stdin = Some config
    ∧ config !! "cluster_url" = Some (PStr url)
    ∧ validate_elasticsearch_config config
      = Return ((PyStr.startswith url "http://" || PyStr.startswith url "https://")
                && negb (String.eqb
                           (default "salesforce-opportunities" (env !! "ES_INDEX"))
                           "")).
Proof.
  intros Hurl Hne Hauth. unfold get_elasticsearch_config.
  assert (getenv env "ES_CLUSTER_URL" = PStr url) as ->
    by (unfold getenv; by rewrite Hurl).
  assert (Py.truthy (PStr url) = true) as Htruthy
    by (simpl; by apply negb_true_iff, String.eqb_neq).
  rewrite Htruthy, orb_comm, Hauth. cbn [andb].
  eexists. split; [reflexivity|]. split; [by simplify_map_eq|].
  unfold validate_elasticsearch_config, lacks, Py.getitem. cbn [existsb].
  simplify_map_eq. rewrite Htruthy. cbn [negb orb mbind outcome_bind].
  cbn [Py.truthy startswith_http].
  set (scheme := PyStr.startswith url "http://" || PyStr.startswith url "https://").
  set (index := default "salesforce-opportunities" (env !! "ES_INDEX")).
  destruct (String.eqb index "") eqn:Hindex; cbn [negb orb].
  { by rewrite andb_false_r. }
  rewrite andb_true_r.
  destruct (Py.truthy (getenv env "ES_API_KEY")) eqn:Hkey; cbn [eq_str].
  - change (String.eqb "api_key" "basic") with false.
    change (String.eqb "api_key" "api_key") with true. cbn iota.
    cbn [negb]. by destruct scheme.
  - change (String.eqb "basic" "basic") with true. cbn iota.
    rewrite orb_false_l in Hauth. apply andb_true_iff in Hauth as [-> ->].
    cbn [negb orb]. by destruct scheme.
Qed.

Lemma environment_config_witness :
  let env : gmap string string :=
    {[ "ES_CLUSTER_URL" := "es.example.com:9243"; "ES_API_KEY" := "abc123" ]} in
  ∃ config,
    get_elasticsearch_config env [] = Some config
    ∧ config !! "cluster_url" = Some (PStr "es.example.com:9243")
    ∧ validate_elasticsearch_config config = Return false.
Proof.
  intros env.
  destruct (environment_config env [] "es.example.com:9243")
    as (config & Hconfig & Hurl & Hvalid); [reflexivity | done | reflexivity|].
  exists config. by repeat split.
Defined.

(** ** The main program *)

Lemma invalid_urls_spec (urls : list string) (url : string) :
  url ∈ List.filter (λ url, negb (validate_opportunity_url (PStr url))) urls
  ↔ url ∈ urls ∧ validate_opportunity_url (PStr url) = false.
Proof.
  rewrite !list_elem_of_In, filter_In, negb_true_iff. tauto.
Qed.

Lemma checked_urls_valid (urls urls' : list string) (continue_on_error : bool)
    (url : string) :
  checked_urls urls continue_on_error = Some urls' →
  url ∈ urls' →
  url ∈ urls ∧ validate_opportunity_url (PStr url) = true.
Proof.
  unfold checked_urls.
  pose proof (invalid_urls_spec urls url) as Hspec.
  set (invalid_urls := List.filter _ urls) in *.
  assert (url ∈ urls → url ∉ invalid_urls →
          url ∈ urls ∧ validate_opportunity_url (PStr url) = true) as Hvalid.
  { intros Hin Hnot. split; [done|].
    destruct (validate_opportunity_url (PStr url)) eqn:Hv; [done|].
    destruct Hnot. by apply Hspec. }
  destruct invalid_urls as [|invalid rest] eqn:Hinvalid; simpl.
  - intros [= <-] Hin. apply Hvalid; [done|]. by intros ?%elem_of_nil.
  - destruct continue_on_error; simpl; [|done].
    intros [= <-] Hin.
    apply list_elem_of_In, filter_In in Hin as [Hin Hnot].
    apply negb_true_iff, bool_decide_eq_false in Hnot.
    apply Hvalid; [by apply list_elem_of_In | done].
Qed.

(** X19. The URLs read from a file all pass the validation of [main]: with
    a URL file the run never stops on an invalid URL and no URL is left out,
    with or without [--continue-on-error]. *)
Theorem file_urls_pass_validation (file : outcome (list string))
    (continue_on_error : bool) :
  checked_urls (read_urls_from_file file) continue_on_error
  = Some (read_urls_from_file file).
Proof.
  unfold checked_urls.
  assert (List.filter (λ url, negb (validate_opportunity_url (PStr url)))
            (read_urls_from_file file) = []) as ->; [|done].
  destruct (List.filter _ _) as [|url rest] eqn:Hinvalid; [done|]. exfalso.
  assert (url ∈ List.filter
            (λ url, negb (validate_opportunity_url (PStr url)))
            (read_urls_from_file file)) as Hin
    by (rewrite Hinvalid; apply list_elem_of_here).
  apply invalid_urls_spec in Hin as [Hin Hv].
  destruct file as [lines|e]; simpl in Hin; [|by apply elem_of_nil in Hin].
  apply read_lines_valid in Hin as [Hvalid _]. congruence.
Qed.

(** What the setup leaves to the loop: JSON only, no client, or a
    configuration with an index name. *)
Lemma setup_indexable (args args' : arguments) (available : bool)
    (env : gmap string string) (stdin : list string)
    (connect : gmap string pyval → option es_client)
    (create_index : es_client → pyval → bool)
    (es : option es_client) (es_config : option (gmap string pyval)) :
  setup_elasticsearch args available env stdin connect create_index
  = Return (es, es_config, args') →
  args'.(args_json_only) = true ∨ es = None
  ∨ ∃ config, es_config = Some config ∧ is_Some (config !! "index").
Proof.
  unfold setup_elasticsearch.
  destruct (args_json_only args) eqn:Hjson; cbn [negb].
  { intros [= <- <- <-]. by left. }
  destruct available; cbn [negb]; [|intros [= <- <- <-]; by left].
  destruct (get_elasticsearch_config env stdin) as [config|]; cbv beta iota zeta;
    [|intros [= <- <- <-]; by left].
  destruct (negb (Py.truthy (PDict config))); [intros [= <- <- <-]; by left|].
  destruct (validate_elasticsearch_config config) as [[]|]; simpl;
    [|intros [= <- <- <-]; by left|done].
  destruct (connect config) as [client|]; [|intros [= <- <- <-]; by left].
  destruct (config !! "index") as [index|] eqn:Hindex; simpl; [|done].
  destruct (create_index client index); simpl; intros [= <- <- <-].
  - right. right. exists config. split; [done|]. by rewrite Hindex.
  - by left.
Qed.

Section MainFacts.

Variable float_of_str : string → outcome float.
Variable str_other : pyval → string.
Variable sf : string → outcome pyval.
Variable rate_source : string → outcome pyval.
Variable now : string.
Variable env : gmap string string.

Lemma index_step_returns (es : option es_client)
    (es_config : option (gmap string pyval)) (args : arguments)
    (document : gmap string pyval) (result : processing) :
  (args.(args_json_only) = true ∨ es = None
   ∨ ∃ config, es_config = Some config ∧ is_Some (config !! "index")) →
  ∃ result',
    index_step str_other es es_config args document result = Return result'.
Proof.
  intros Hsetup. unfold index_step.
  set (r0 := if is_error_document document then _ else result).
  destruct es as [client|]; [|by exists r0].
  destruct es_config as [config|]; [|by exists r0].
  destruct (negb (args_json_only args) && Py.truthy (PDict config)) eqn:Huse;
    [|by exists r0].
  apply andb_true_iff in Huse as [Hjson _].
  destruct Hsetup as [Hjson'|[?|(config' & [= <-] & index_name & Hindex)]];
    [by rewrite Hjson' in Hjson|done|].
  unfold Py.getitem. rewrite Hindex. simpl.
  destruct (index_opportunity_data _ _ _); simpl; [by exists r0|].
  destruct (is_error_document document); by eexists.
Qed.

(** X20. After the validation and the Elasticsearch setup of [main], every
    URL of the loop is processed with success, whatever Salesforce, the rate
    source and the cluster answer: the loop never stops on a failed URL. *)
Theorem checked_url_is_processed (urls urls' : list string)
    (continue_on_error available : bool) (args args' : arguments)
    (stdin : list string) (connect : gmap string pyval → option es_client)
    (create_index : es_client → pyval → bool)
    (es : option es_client) (es_config : option (gmap string pyval))
    (url : string) :
  checked_urls urls continue_on_error = Some urls' →
  setup_elasticsearch args available env stdin connect create_index
  = Return (es, es_config, args') →
  url ∈ urls' →
  (process_single_opportunity float_of_str str_other sf rate_source now env
     url es es_config args').(success) = true.
Proof.
  intros Hchecked Hsetup Hurl.
  destruct (checked_urls_valid _ _ _ _ Hchecked Hurl) as [_ Hvalid].
  destruct (valid_url_has_id _ Hvalid) as [opportunity_id Hid].
  rewrite (process_extracted _ _ _ _ _ _ _ _ _ _ _ Hid). cbv zeta.
  set (document := query_opportunity_data _ _ _ _ _ _).
  set (result := Processing _ _ _ _ _ _).
  apply setup_indexable in Hsetup.
  by destruct (index_step_returns es es_config args' document result Hsetup)
    as [result' ->].
Qed.

End MainFacts.

Lemma checked_url_is_processed_witness :
  let url :=
    "https://elastic.lightning.force.com/lightning/r/Opportunity/006Vv00000ABC123/view" in
  let sf := λ _ : string, Raise (Exn OtherException "INSUFFICIENT_ACCESS: denied") in
  let rate_source := λ _ : string, Raise (Exn URLError "timed out") in
  let client : es_client :=
    λ _ _ _, Raise (Exn OtherException "cluster unavailable") in
  let env : gmap string string :=
    {[ "ES_CLUSTER_URL" := "https://es.example.com:9243";
       "ES_API_KEY" := "secret" ]} in
  let args := Arguments false (Some "USD") in
  checked_urls [url; "not a url"] true = Some [url]
  ∧ ∃ es es_config args',
      setup_elasticsearch args true env [] (λ _, Some client) (λ _ _, true)
      = Return (es, es_config, args')
      ∧ (process_single_opportunity not_a_number (λ _, "") sf rate_source
           "2024-01-01T00:00:00" env url es es_config args').(success) = true.
Proof.
  intros url sf rate_source client env args.
  assert (checked_urls [url; "not a url"] true = Some [url]) as Hchecked
    by (vm_compute; reflexivity).
  split; [exact Hchecked|].
  assert (returned (setup_elasticsearch args true env [] (λ _, Some client)
                      (λ _ _, true)) = true) as Hreturned
    by (vm_compute; reflexivity).
  destruct (setup_elasticsearch args true env [] (λ _, Some client)
              (λ _ _, true)) as [[[es es_config] args']|] eqn:Hsetup;
    [clear Hreturned|discriminate Hreturned].
  exists es, es_config, args'. split; [reflexivity|].
  apply (checked_url_is_processed not_a_number (λ _, "") sf rate_source
           "2024-01-01T00:00:00" env [url; "not a url"] [url] true true
           args args' [] (λ _, Some client) (λ _ _, true) es es_config url
           Hchecked Hsetup).
  apply list_elem_of_here.
Defined.
